(** * VDI dashboard: the in-memory ledger and the holder notification

    A shallow embedding of the storage module (class [MemStorage]) and of
    [notifyVDIRequest] from [registerRoutes], with the properties of the
    ledger stated over it.

    Modelling choices.
    - A JavaScript [Map] iterates in insertion order and [set] on a key
      that is present keeps the key's position; several functions depend on
      that order ([find] in [getUserByUsername], [requests[length - 1]] in
      [notifyVDIRequest]), so a [Map] is an association list in insertion
      order ([JsMap]).
    - [number] is [Z]: every number the ledger handles is an integer
      counter or an id copied from one, far below 2^53 where doubles stop
      being exact.
    - An [async] method of [MemStorage] contains no [await] before its last
      effect, so each call runs to completion on the event loop: a method is
      a function from the store to a result and a store.  A thrown [Error]
      keeps the writes made before the [throw]; the monad [M] below returns
      the store in both cases. *)

From Stdlib Require Import ZArith String List Lia Sorted.
From stdpp Require Import base tactics decidable option list numbers strings pretty sorting.

Local Open Scope string_scope.
Local Open Scope list_scope.
Local Open Scope Z_scope.

(** ** JavaScript [Map] *)

Module JsMap.

Definition t (K V : Type) : Type := list (K * V).

Section Ops.
Context {K V : Type} `{EqDecision K}.

Definition empty : t K V := [].

Fixpoint get (k : K) (m : t K V) : option V :=
  match m with
  | [] => None
  | (k', v) :: m' => if decide (k = k') then Some v else get k m'
  end.

(* [set] overwrites in place when the key is present, appends otherwise. *)
Fixpoint set (k : K) (v : V) (m : t K V) : t K V :=
  match m with
  | [] => [(k, v)]
  | (k', v') :: m' =>
      if decide (k = k') then (k', v) :: m' else (k', v') :: set k v m'
  end.

Definition keys (m : t K V) : list K := map fst m.
Definition values (m : t K V) : list V := map snd m.

Definition has (k : K) (m : t K V) : bool :=
  match get k m with Some _ => true | None => false end.

Fixpoint delete (k : K) (m : t K V) : t K V :=
  match m with
  | [] => []
  | (k', v') :: m' => if decide (k = k') then m' else (k', v') :: delete k m'
  end.

End Ops.

End JsMap.

(** ** Records of [@shared/schema] *)

Record User := mkUser {
  user_id : Z;
  username : string;
  password : string
}.

Record InsertUser := mkInsertUser {
  insert_username : string;
  insert_password : string
}.

Inductive VDIStatus := Free | Assigned.

Record VDI := mkVDI {
  vdi_id : string;
  vdi_status : VDIStatus;
  assignedUserId : option Z
}.

Inductive RequestStatus := Pending | Approved | Rejected.

Record VDIRequest := mkVDIRequest {
  request_id : Z;
  vdiId : string;
  requestedByUserId : Z;
  request_status : RequestStatus
}.

#[global] Instance VDIStatus_eq_dec : EqDecision VDIStatus.
Proof. solve_decision. Defined.

#[global] Instance RequestStatus_eq_dec : EqDecision RequestStatus.
Proof. solve_decision. Defined.

#[global] Instance User_eq_dec : EqDecision User.
Proof. solve_decision. Defined.

#[global] Instance VDI_eq_dec : EqDecision VDI.
Proof. solve_decision. Defined.

#[global] Instance VDIRequest_eq_dec : EqDecision VDIRequest.
Proof. solve_decision. Defined.

(** ** The store *)

Record MemStorage := mkMemStorage {
  users : JsMap.t Z User;
  vdis : JsMap.t string VDI;
  vdiRequests : JsMap.t Z VDIRequest;
  currentId : Z;
  currentRequestId : Z
}.

(* [new Error(message)] *)
Inductive Error := mkError (message : string).

#[global] Instance Error_eq_dec : EqDecision Error.
Proof. solve_decision. Defined.

Definition VDI_not_found : Error := mkError "VDI not found".
Definition VDI_already_assigned : Error := mkError "VDI already assigned".
Definition Request_not_found : Error := mkError "Request not found".

(** The spec's error taxonomy, read off the three messages the store throws. *)
Inductive ErrorKind := NotFound | Conflict.

Definition kind (e : Error) : option ErrorKind :=
  if decide (e = VDI_not_found) then Some NotFound
  else if decide (e = Request_not_found) then Some NotFound
  else if decide (e = VDI_already_assigned) then Some Conflict
  else None.

(** ** Methods as store transformers that may throw *)

Definition M (A : Type) : Type := MemStorage -> (Error + A) * MemStorage.

Definition ret {A} (a : A) : M A := fun s => (inr a, s).
Definition throw {A} (e : Error) : M A := fun s => (inl e, s).
Definition bind {A B} (c : M A) (k : A -> M B) : M B :=
  fun s => match c s with
           | (inr a, s') => k a s'
           | (inl e, s') => (inl e, s')
           end.
Definition gets {A} (f : MemStorage -> A) : M A := fun s => (inr (f s), s).
Definition modify (f : MemStorage -> MemStorage) : M unit := fun s => (inr tt, f s).

Notation "x <~ c ;; k" := (bind c (fun x => k))
  (at level 100, c at next level, right associativity).
Notation "c ;;; k" := (bind c (fun _ => k))
  (at level 100, right associativity).

Definition with_users (f : JsMap.t Z User -> JsMap.t Z User) (s : MemStorage) :=
  mkMemStorage (f (users s)) (vdis s) (vdiRequests s) (currentId s) (currentRequestId s).
Definition with_vdis (f : JsMap.t string VDI -> JsMap.t string VDI) (s : MemStorage) :=
  mkMemStorage (users s) (f (vdis s)) (vdiRequests s) (currentId s) (currentRequestId s).
Definition with_vdiRequests
    (f : JsMap.t Z VDIRequest -> JsMap.t Z VDIRequest) (s : MemStorage) :=
  mkMemStorage (users s) (vdis s) (f (vdiRequests s)) (currentId s) (currentRequestId s).

(* [this.currentId++] and [this.currentRequestId++]: the old value is the result. *)
Definition currentId_postinc : M Z :=
  fun s => (inr (currentId s),
            mkMemStorage (users s) (vdis s) (vdiRequests s)
                         (currentId s + 1) (currentRequestId s)).
Definition currentRequestId_postinc : M Z :=
  fun s => (inr (currentRequestId s),
            mkMemStorage (users s) (vdis s) (vdiRequests s)
                         (currentId s) (currentRequestId s + 1)).

(** *** [constructor] *)

(* The loop [for (let i = 1; i <= 9; i++) this.vdis.set(`VDI0${i}`, ...)]. *)
Definition initialVDI (i : Z) : string * VDI :=
  let vdiId := "VDI0" +:+ pretty i in
  (vdiId, mkVDI vdiId Free None).

Definition constructor : MemStorage :=
  {| users := JsMap.empty;
     vdis := foldl (fun m i => JsMap.set (fst (initialVDI i)) (snd (initialVDI i)) m)
                   JsMap.empty (seqZ 1 9);
     vdiRequests := JsMap.empty;
     currentId := 1;
     currentRequestId := 1 |}.

(** *** Identity store *)

Definition getUser (id : Z) : M (option User) :=
  gets (fun s => JsMap.get id (users s)).

Definition getUserByUsername (name : string) : M (option User) :=
  gets (fun s => find (fun user => bool_decide (username user = name))
                      (JsMap.values (users s))).

Definition createUser (insertUser : InsertUser) : M User :=
  id <~ currentId_postinc ;;
  let user := mkUser id (insert_username insertUser) (insert_password insertUser) in
  modify (with_users (JsMap.set id user)) ;;;
  ret user.

(* [initializeDefaultUsers]: the password stored is the result of
   [hashPassword], a salted scrypt hash; the two hashes are inputs here. *)
Definition defaultUsers : list (string * string) :=
  [("madhav", "madhav123"); ("tinaga", "tinaga123")].

Definition initializeDefaultUsers (hashPassword : string -> string) : M unit :=
  foldr (fun user rest =>
           id <~ currentId_postinc ;;
           modify (with_users (JsMap.set id
                     (mkUser id (fst user) (hashPassword (snd user))))) ;;;
           rest)
        (ret tt) defaultUsers.

(** *** Resource ledger *)

Definition getVDIs : M (list VDI) :=
  gets (fun s => JsMap.values (vdis s)).

Definition assignVDI (vdiId : string) (userId : Z) : M VDI :=
  vdi <~ gets (fun s => JsMap.get vdiId (vdis s)) ;;
  match vdi with
  | None => throw VDI_not_found
  | Some vdi =>
      if decide (vdi_status vdi = Assigned) then throw VDI_already_assigned
      else
        let updatedVdi := mkVDI (vdi_id vdi) Assigned (Some userId) in
        modify (with_vdis (JsMap.set vdiId updatedVdi)) ;;;
        ret updatedVdi
  end.

Definition unassignVDI (vdiId : string) : M VDI :=
  vdi <~ gets (fun s => JsMap.get vdiId (vdis s)) ;;
  match vdi with
  | None => throw VDI_not_found
  | Some vdi =>
      let updatedVdi := mkVDI (vdi_id vdi) Free None in
      modify (with_vdis (JsMap.set vdiId updatedVdi)) ;;;
      ret updatedVdi
  end.

Definition createVDIRequest (vdiId : string) (userId : Z) : M VDIRequest :=
  id <~ currentRequestId_postinc ;;
  let request := mkVDIRequest id vdiId userId Pending in
  modify (with_vdiRequests (JsMap.set id request)) ;;;
  ret request.

Definition with_status (request : VDIRequest) (st : RequestStatus) : VDIRequest :=
  mkVDIRequest (request_id request) (vdiId request) (requestedByUserId request) st.

Definition approveVDIRequest (requestId : Z) : M VDIRequest :=
  request <~ gets (fun s => JsMap.get requestId (vdiRequests s)) ;;
  match request with
  | None => throw Request_not_found
  | Some request =>
      let updatedRequest := with_status request Approved in
      modify (with_vdiRequests (JsMap.set requestId updatedRequest)) ;;;
      (* Assign VDI to requesting user *)
      assignVDI (vdiId request) (requestedByUserId request) ;;;
      ret updatedRequest
  end.

Definition rejectVDIRequest (requestId : Z) : M VDIRequest :=
  request <~ gets (fun s => JsMap.get requestId (vdiRequests s)) ;;
  match request with
  | None => throw Request_not_found
  | Some request =>
      let updatedRequest := with_status request Rejected in
      modify (with_vdiRequests (JsMap.set requestId updatedRequest)) ;;;
      ret updatedRequest
  end.

Definition getVDIRequests : M (list VDIRequest) :=
  gets (fun s => JsMap.values (vdiRequests s)).

(** ** Calls on the store and reachable stores *)

Inductive Call :=
| GetUser (id : Z)
| GetUserByUsername (name : string)
| CreateUser (insertUser : InsertUser)
| GetVDIs
| AssignVDI (vdiId : string) (userId : Z)
| UnassignVDI (vdiId : string)
| CreateVDIRequest (vdiId : string) (userId : Z)
| ApproveVDIRequest (requestId : Z)
| RejectVDIRequest (requestId : Z)
| GetVDIRequests.

Inductive Value :=
| OptUser (user : option User)
| AUser (user : User)
| VDIs (l : list VDI)
| AVDI (vdi : VDI)
| ARequest (request : VDIRequest)
| Requests (l : list VDIRequest).

Definition fmap_M {A B} (f : A -> B) (c : M A) : M B := a <~ c ;; ret (f a).

Definition invoke (c : Call) : M Value :=
  match c with
  | GetUser id => fmap_M OptUser (getUser id)
  | GetUserByUsername name => fmap_M OptUser (getUserByUsername name)
  | CreateUser insertUser => fmap_M AUser (createUser insertUser)
  | GetVDIs => fmap_M VDIs getVDIs
  | AssignVDI vdiId userId => fmap_M AVDI (assignVDI vdiId userId)
  | UnassignVDI vdiId => fmap_M AVDI (unassignVDI vdiId)
  | CreateVDIRequest vdiId userId => fmap_M ARequest (createVDIRequest vdiId userId)
  | ApproveVDIRequest requestId => fmap_M ARequest (approveVDIRequest requestId)
  | RejectVDIRequest requestId => fmap_M ARequest (rejectVDIRequest requestId)
  | GetVDIRequests => fmap_M Requests getVDIRequests
  end.

(* The store a call leaves behind, whether it returned or threw. *)
Definition exec (c : Call) (s : MemStorage) : MemStorage := snd (invoke c s).

(* A sequence of calls, against the store the previous call left behind. *)
Fixpoint run (cs : list Call) (s : MemStorage) : list (Error + Value) * MemStorage :=
  match cs with
  | [] => ([], s)
  | c :: cs' =>
      let (r, s') := invoke c s in
      let (rs, s'') := run cs' s' in
      (r :: rs, s'')
  end.

(* The ids [createVDIRequest] handed out during a sequence of calls, in order. *)
Definition allocated (r : Error + Value) : list Z :=
  match r with
  | inr (ARequest request) => [request_id request]
  | _ => []
  end.

Fixpoint createdRequestIds (cs : list Call) (rs : list (Error + Value)) : list Z :=
  match cs, rs with
  | CreateVDIRequest _ _ :: cs', r :: rs' => allocated r ++ createdRequestIds cs' rs'
  | _ :: cs', _ :: rs' => createdRequestIds cs' rs'
  | _, _ => []
  end.

(* Stores of one process lifetime: [new MemStorage()] and then any calls.
   The constructor starts [initializeDefaultUsers] without awaiting it; each
   round of its loop writes like a [createUser] call once its hash is there,
   so the seeding is covered by [CreateUser] steps. *)
Inductive reachable : MemStorage -> Prop :=
| reachable_constructor : reachable constructor
| reachable_exec c s : reachable s -> reachable (exec c s).

(** ** The holder notification of [registerRoutes] *)

Inductive ReadyState := CONNECTING | OPEN | CLOSING | CLOSED.

#[global] Instance ReadyState_eq_dec : EqDecision ReadyState.
Proof. solve_decision. Defined.

(* A connection: its identity and what [client.readyState] reads at the send. *)
Record WebSocket := mkWebSocket {
  socket : nat;
  readyState : ReadyState
}.

#[global] Instance WebSocket_eq_dec : EqDecision WebSocket.
Proof. solve_decision. Defined.

(* The object given to [JSON.stringify], tagged by its [type] field. *)
Inductive Message :=
| vdi_request (requestingUser_id : Z) (requestingUser_username : string)
              (vdiId : string) (requestId : Z).

Inductive Event :=
| send (client : WebSocket) (message : Message)
| console_error.

(* [userConnections]: a [Set] of sockets per user id, in insertion order. *)
Definition UserConnections := JsMap.t Z (list WebSocket).

(* Truthiness of [vdi?.assignedUserId]: [undefined], [null] and [0] are falsy. *)
Definition truthy (n : option Z) : bool :=
  match n with
  | Some n => negb (Z.eqb n 0)
  | None => false
  end.

(* The three reads are awaited on promises that are already settled and the
   store is read as one snapshot [s]; what the [try] block sends or logs is
   the result. *)
Definition notifyVDIRequest (userConnections : UserConnections)
    (vdiId : string) (requestingUserId : Z) (s : MemStorage) : list Event :=
  let vdi := find (fun v => bool_decide (vdi_id v = vdiId)) (JsMap.values (vdis s)) in
  let requestingUser := JsMap.get requestingUserId (users s) in
  let requests := JsMap.values (vdiRequests s) in
  let request := last requests in
  let owner := vdi ≫= assignedUserId in
  match owner, requestingUser with
  | Some owner, Some requestingUser =>
      if truthy (Some owner) then
        match request with
        | None => [console_error] (* [request.id] of [undefined] throws, caught *)
        | Some request =>
            let message := vdi_request (user_id requestingUser) (username requestingUser)
                                       vdiId (request_id request) in
            match JsMap.get owner userConnections with
            | Some ownerConnections =>
                map (fun client => send client message)
                    (filter (fun client => readyState client = OPEN) ownerConnections)
            | None => []
            end
        end
      else []
  | _, _ => []
  end.

(** The spec's wording of the request a notification names: the most
    recently created pending request for that VDI. *)
Definition latestPendingRequestFor (v : string) (s : MemStorage) : option VDIRequest :=
  last (filter (fun r => vdiId r = v /\ request_status r = Pending)
               (JsMap.values (vdiRequests s))).

(** ** Well-formed stores *)

(* A VDI record repeats its key, and is [Assigned] exactly when it has a holder. *)
Definition vdi_consistent (vdi : VDI) : Prop :=
  vdi_status vdi = Assigned <-> assignedUserId vdi <> None.

Definition vdi_entry_ok (kv : string * VDI) : Prop :=
  vdi_id (snd kv) = fst kv /\ vdi_consistent (snd kv).

(* A request repeats its key, which the counter has passed. *)
Definition request_entry_ok (next : Z) (kv : Z * VDIRequest) : Prop :=
  request_id (snd kv) = fst kv /\ fst kv < next.

(* A user repeats its key, which the counter has passed. *)
Definition user_entry_ok (next : Z) (kv : Z * User) : Prop :=
  user_id (snd kv) = fst kv /\ fst kv < next.

Record wf (s : MemStorage) : Prop := mkWf {
  wf_vdis : Forall vdi_entry_ok (vdis s);
  wf_requests : Forall (request_entry_ok (currentRequestId s)) (vdiRequests s);
  wf_requests_sorted : StronglySorted Z.lt (JsMap.keys (vdiRequests s));
  wf_users : Forall (user_entry_ok (currentId s)) (users s);
  wf_users_sorted : StronglySorted Z.lt (JsMap.keys (users s))
}.

(** ** The socket registry of [registerRoutes] *)

(* A [Set] of sockets holds each socket object once, in insertion order;
   membership goes by the object, which is [socket] here. *)
Definition Set_has (ws : WebSocket) (sockets : list WebSocket) : bool :=
  bool_decide (socket ws ∈ map socket sockets).

Definition Set_add (ws : WebSocket) (sockets : list WebSocket) : list WebSocket :=
  if Set_has ws sockets then sockets else sockets ++ [ws].

Definition Set_delete (ws : WebSocket) (sockets : list WebSocket) : list WebSocket :=
  filter (fun client => socket client <> socket ws) sockets.

(* "Add connection to user's set" *)
Definition register (userId : Z) (ws : WebSocket) (userConnections : UserConnections)
    : UserConnections :=
  let userConnections :=
    if JsMap.has userId userConnections then userConnections
    else JsMap.set userId [] userConnections in
  match JsMap.get userId userConnections with
  | Some sockets => JsMap.set userId (Set_add ws sockets) userConnections
  | None => userConnections
  end.

(* The ['close'] handler: "Remove connection when closed" *)
Definition unregister (userId : Z) (ws : WebSocket) (userConnections : UserConnections)
    : UserConnections :=
  let userConnections :=
    match JsMap.get userId userConnections with
    | Some sockets => JsMap.set userId (Set_delete ws sockets) userConnections
    | None => userConnections
    end in
  match JsMap.get userId userConnections with
  | Some sockets =>
      if decide (length sockets = 0%nat) then JsMap.delete userId userConnections
      else userConnections
  | None => userConnections
  end.

(* What the session store hands to the callback: [session.passport?.user]. *)
Record Passport := mkPassport { passport_user : option Z }.
Record SessionData := mkSessionData { passport : option Passport }.

Section Connection.

(* [parse] of the cookie package and [storage.sessionStore.get] are not part
   of the repository: the cookies parsed from a header and the session found
   for an id are taken as given. *)
Variable parseCookie : string -> JsMap.t string string.
Variable sessionStore_get : string -> option SessionData.

(* The user a new connection belongs to; every [return] before the
   registration is [None].  The empty string and the number 0 are falsy. *)
Definition sessionUser (cookieHeader : option string) : option Z :=
  match cookieHeader with
  | None => None
  | Some cookieHeader =>
      if decide (cookieHeader = "") then None
      else
        match JsMap.get "vdi.sid" (parseCookie cookieHeader) with
        | None => None
        | Some sessionID =>
            if decide (sessionID = "") then None
            else
              match sessionStore_get sessionID with
              | None => None
              | Some sessionData =>
                  let user := passport sessionData ≫= passport_user in
                  if truthy user then user else None
              end
        end
  end.

(* The ['connection'] handler. *)
Definition connection (cookieHeader : option string) (ws : WebSocket)
    (userConnections : UserConnections) : UserConnections :=
  match sessionUser cookieHeader with
  | None => userConnections
  | Some userId => register userId ws userConnections
  end.

End Connection.

(* What happens to the registry over time: sockets are registered and the
   ['close'] handler of a registered socket runs. *)
Inductive SocketEvent :=
| Registered (userId : Z) (ws : WebSocket)
| Closed (userId : Z) (ws : WebSocket).

Definition handleSocketEvent (ev : SocketEvent) (userConnections : UserConnections)
    : UserConnections :=
  match ev with
  | Registered userId ws => register userId ws userConnections
  | Closed userId ws => unregister userId ws userConnections
  end.

Inductive registry : UserConnections -> Prop :=
| registry_empty : registry JsMap.empty
| registry_event ev userConnections :
    registry userConnections -> registry (handleSocketEvent ev userConnections).

(* No entry is left with an empty set, and no set holds a socket twice. *)
Definition registry_entry_ok (kv : Z * list WebSocket) : Prop :=
  snd kv <> [] /\ NoDup (map socket (snd kv)).

Definition registry_ok (conns : UserConnections) : Prop :=
  NoDup (JsMap.keys conns) /\ Forall registry_entry_ok conns.

(** ** The snapshot broadcast and the routes *)

(* A VDI with [assignedUsername]; [None] is a field that is absent or
   [undefined], which [JSON.stringify] leaves out alike. *)
Record VDIWithUserInfo := mkVDIWithUserInfo {
  info_vdi : VDI;
  assignedUsername : option string
}.

(* The callback of [vdis.map] in [broadcastVDIUpdate]. *)
Definition withUserInfo (s : MemStorage) (vdi : VDI) : VDIWithUserInfo :=
  if truthy (assignedUserId vdi) then
    let user := assignedUserId vdi ≫= fun id => JsMap.get id (users s) in
    mkVDIWithUserInfo vdi (username <$> user)
  else mkVDIWithUserInfo vdi None.

Inductive Update :=
| vdi_update (data : list VDIWithUserInfo).

(* [wss.clients] is the set of all sockets of the server, registered or not. *)
Definition broadcastVDIUpdate (clients : list WebSocket) (s : MemStorage)
    : list (WebSocket * Update) :=
  let vdis := JsMap.values (vdis s) in
  let vdisWithUserInfo := map (withUserInfo s) vdis in
  let message := vdi_update vdisWithUserInfo in
  map (fun client => (client, message))
      (filter (fun client => readyState client = OPEN) clients).

Inductive Response (A : Type) :=
| sendStatus401
| json200 (body : A)
| json400 (error : string).

Arguments sendStatus401 {A}.
Arguments json200 {A} body.
Arguments json400 {A} error.

(* What a handler leaves behind: the answer, the store, the targeted
   messages and then the broadcast messages it sent. *)
Record Handled (A : Type) := mkHandled {
  response : Response A;
  store : MemStorage;
  notified : list Event;
  broadcasted : list (WebSocket * Update)
}.

Arguments mkHandled {A}.
Arguments response {A}.
Arguments store {A}.
Arguments notified {A}.
Arguments broadcasted {A}.

Definition error_message (e : Error) : string :=
  match e with mkError message => message end.

Section Routes.

(* The sockets of the server and the registry, as they are while the handler
   runs.  A handler is taken as one run: no other handler writes the store
   between its awaits. *)
Variable clients : list WebSocket.
Variable userConnections : UserConnections.

(* The authentication middleware is not part of the repository: [user] is
   [req.user] when [req.isAuthenticated()] holds and [None] when it does not. *)

(* GET /api/vdis; the callback of [vdis.map] is written out a second time in
   the source. *)
Definition getVdisRoute (user : option User) (s : MemStorage)
    : Response (list VDIWithUserInfo) :=
  match user with
  | None => sendStatus401
  | Some _ =>
      json200 (map (fun vdi =>
                      if truthy (assignedUserId vdi) then
                        mkVDIWithUserInfo vdi
                          (username <$>
                             (assignedUserId vdi ≫= fun id => JsMap.get id (users s)))
                      else mkVDIWithUserInfo vdi None)
                   (JsMap.values (vdis s)))
  end.

(* POST /api/vdis/:id/assign *)
Definition assignRoute (user : option User) (id : string) (s : MemStorage)
    : Handled VDI :=
  match user with
  | None => mkHandled sendStatus401 s [] []
  | Some user =>
      match assignVDI id (user_id user) s with
      | (inr vdi, s') => mkHandled (json200 vdi) s' [] (broadcastVDIUpdate clients s')
      | (inl error, s') => mkHandled (json400 (error_message error)) s' [] []
      end
  end.

(* POST /api/vdis/:id/request *)
Definition requestRoute (user : option User) (id : string) (s : MemStorage)
    : Handled VDIRequest :=
  match user with
  | None => mkHandled sendStatus401 s [] []
  | Some user =>
      match createVDIRequest id (user_id user) s with
      | (inr request, s') =>
          mkHandled (json200 request) s'
                    (notifyVDIRequest userConnections id (user_id user) s')
                    (broadcastVDIUpdate clients s')
      | (inl error, s') => mkHandled (json400 (error_message error)) s' [] []
      end
  end.

(* [parseInt(req.params.id)] is a number or [NaN] ([None]); [NaN] is the key
   of no request, so the lookup finds nothing. *)
Definition withRequestId (method : Z -> M VDIRequest) (id : option Z) : M VDIRequest :=
  match id with
  | Some requestId => method requestId
  | None => throw Request_not_found
  end.

(* POST /api/requests/:id/approve *)
Definition approveRoute (user : option User) (id : option Z) (s : MemStorage)
    : Handled VDIRequest :=
  match user with
  | None => mkHandled sendStatus401 s [] []
  | Some _ =>
      match withRequestId approveVDIRequest id s with
      | (inr request, s') =>
          mkHandled (json200 request) s' [] (broadcastVDIUpdate clients s')
      | (inl error, s') => mkHandled (json400 (error_message error)) s' [] []
      end
  end.

(* POST /api/requests/:id/reject *)
Definition rejectRoute (user : option User) (id : option Z) (s : MemStorage)
    : Handled VDIRequest :=
  match user with
  | None => mkHandled sendStatus401 s [] []
  | Some _ =>
      match withRequestId rejectVDIRequest id s with
      | (inr request, s') =>
          mkHandled (json200 request) s' [] (broadcastVDIUpdate clients s')
      | (inl error, s') => mkHandled (json400 (error_message error)) s' [] []
      end
  end.

End Routes.

(** ** The home page *)

(* [vdi.assignedUserId === user?.id]: [null] on the left and [undefined] on
   the right are never equal. *)
Definition sameUser (assigned : option Z) (user : option User) : bool :=
  match assigned, user with
  | Some a, Some u => Z.eqb a (user_id u)
  | _, _ => false
  end.

Inductive UserCell := You | InUse (label : string) | NotAssigned.

(* [assignedUsername || 'In Use']: absent and empty names are falsy. *)
Definition userCell (vdi : VDIWithUserInfo) (user : option User) : UserCell :=
  if sameUser (assignedUserId (info_vdi vdi)) user then You
  else if truthy (assignedUserId (info_vdi vdi)) then
    InUse (match assignedUsername vdi with
           | Some name => if decide (name = "") then "In Use" else name
           | None => "In Use"
           end)
  else NotAssigned.

Inductive ActionButton := AssignButton | RequestButton.

(* The two conditional buttons of the Actions cell, in order. *)
Definition actions (vdi : VDIWithUserInfo) (user : option User) : list ActionButton :=
  (if decide (vdi_status (info_vdi vdi) = Free) then [AssignButton] else []) ++
  (if decide (vdi_status (info_vdi vdi) = Assigned) then
     if sameUser (assignedUserId (info_vdi vdi)) user then [] else [RequestButton]
   else []).

(** ** Stores used in the examples *)

Definition madhav : InsertUser := mkInsertUser "madhav" "hash-of-madhav123".
Definition tinaga : InsertUser := mkInsertUser "tinaga" "hash-of-tinaga123".

(* The store once [initializeDefaultUsers] has run: users 1 and 2. *)
Definition seeded : MemStorage :=
  exec (CreateUser tinaga) (exec (CreateUser madhav) constructor).

(* User 1 holds VDI01 and user 2 has asked for it: request 1, Pending. *)
Definition held_and_requested : MemStorage :=
  exec (CreateVDIRequest "VDI01" 2) (exec (AssignVDI "VDI01" 1) seeded).

(* User 2 has asked for the free VDI03 and the request was rejected. *)
Definition rejected_once : MemStorage :=
  exec (RejectVDIRequest 1) (exec (CreateVDIRequest "VDI03" 2) seeded).

(* User 1 holds VDI01 and VDI02; user 2 has asked for VDI01 (request 1) and
   then for VDI02 (request 2). *)
Definition two_requests : MemStorage :=
  exec (CreateVDIRequest "VDI02" 2)
    (exec (CreateVDIRequest "VDI01" 2)
       (exec (AssignVDI "VDI02" 1) (exec (AssignVDI "VDI01" 1) seeded))).

(* User 1 has one open socket and one closed, user 2 one open socket. *)
Definition sockets : UserConnections :=
  [(1, [mkWebSocket 10 OPEN; mkWebSocket 11 CLOSED]); (2, [mkWebSocket 20 OPEN])].

(** ** Stores the server can be in *)

(* The storage object is reached only through the routes and through the
   registration and the seeding, which call [createUser].  The user of an
   authenticated request is a stored user: the authentication middleware,
   which is not part of the repository, reads [req.user] from the store. *)
Definition authenticated (user : option User) (s : MemStorage) : Prop :=
  forall u, user = Some u -> JsMap.get (user_id u) (users s) = Some u.

Inductive served : MemStorage -> Prop :=
| served_constructor : served constructor
| served_createUser insertUser s :
    served s -> served (snd (createUser insertUser s))
| served_assign clients user id s :
    served s -> authenticated user s ->
    served (store (assignRoute clients user id s))
| served_request clients userConnections user id s :
    served s -> authenticated user s ->
    served (store (requestRoute clients userConnections user id s))
| served_approve clients user id s :
    served s -> authenticated user s ->
    served (store (approveRoute clients user id s))
| served_reject clients user id s :
    served s -> authenticated user s ->
    served (store (rejectRoute clients user id s)).

(* Holders and requesters are stored users. *)
Definition holder_is_user (users : JsMap.t Z User) (kv : string * VDI) : Prop :=
  forall holder, assignedUserId (snd kv) = Some holder -> is_Some (JsMap.get holder users).

Definition requester_is_user (users : JsMap.t Z User) (kv : Z * VDIRequest) : Prop :=
  is_Some (JsMap.get (requestedByUserId (snd kv)) users).

Definition parties_are_users (s : MemStorage) : Prop :=
  Forall (holder_is_user (users s)) (vdis s) /\
  Forall (requester_is_user (users s)) (vdiRequests s).

(* User 1 has taken VDI01 through the assign route. *)
Definition taken_by_madhav : MemStorage :=
  store (assignRoute [] (Some (mkUser 1 "madhav" "hash-of-madhav123")) "VDI01" seeded).

(* The sockets of the server: those of [sockets] and socket 30, which is not
   registered. *)
Definition all_clients : list WebSocket :=
  [mkWebSocket 10 OPEN; mkWebSocket 11 CLOSED; mkWebSocket 20 OPEN; mkWebSocket 30 OPEN].

(** ** Proof steps used throughout *)

Ltac unfold_M :=
  unfold exec, invoke, fmap_M, getUser, getUserByUsername, createUser, getVDIs,
    assignVDI, unassignVDI, createVDIRequest, approveVDIRequest, rejectVDIRequest,
    getVDIRequests, currentId_postinc, currentRequestId_postinc,
    bind, gets, modify, ret, throw in *.

Ltac reachable_now := repeat apply reachable_exec; apply reachable_constructor.

(** ** Examples *)

Example constructor_pool :
  JsMap.keys (vdis constructor) =
  ["VDI01"; "VDI02"; "VDI03"; "VDI04"; "VDI05"; "VDI06"; "VDI07"; "VDI08"; "VDI09"].
Proof. vm_compute. reflexivity. Qed.

Example seeded_by_initializeDefaultUsers :
  snd (initializeDefaultUsers (fun p => "hash-of-" +:+ p) constructor) = seeded.
Proof. vm_compute. reflexivity. Qed.

Example held_and_requested_store :
  JsMap.get "VDI01" (vdis held_and_requested) = Some (mkVDI "VDI01" Assigned (Some 1)) /\
  JsMap.values (vdiRequests held_and_requested) = [mkVDIRequest 1 "VDI01" 2 Pending].
Proof. vm_compute. split; reflexivity. Qed.

(** ** Facts about [JsMap] *)

Section JsMapFacts.
Context {K V : Type} `{EqDecision K}.
Implicit Types (k : K) (v : V) (m : JsMap.t K V).

Lemma get_set_eq k v m : JsMap.get k (JsMap.set k v m) = Some v.
Proof.
  induction m as [|[k' v'] m IH]; simpl.
  - by rewrite decide_True.
  - destruct (decide (k = k')) as [->|Hne]; simpl.
    + by rewrite decide_True.
    + by rewrite decide_False.
Qed.

Lemma get_set_ne k k' v m : k <> k' -> JsMap.get k' (JsMap.set k v m) = JsMap.get k' m.
Proof.
  intros Hne. induction m as [|[k0 v0] m IH]; simpl.
  - by rewrite decide_False.
  - destruct (decide (k = k0)) as [->|Hk]; simpl.
    + by rewrite !decide_False.
    + by rewrite IH.
Qed.

Lemma get_set k k' v m :
  JsMap.get k' (JsMap.set k v m) = if decide (k = k') then Some v else JsMap.get k' m.
Proof.
  case_decide; [subst; apply get_set_eq | by apply get_set_ne].
Qed.

Lemma get_None_keys k m : JsMap.get k m = None <-> k ∉ JsMap.keys m.
Proof.
  induction m as [|[k' v'] m IH]; simpl.
  - split; [intros _; apply not_elem_of_nil | done].
  - rewrite not_elem_of_cons. case_decide.
    + split; [done | intros [? _]; done].
    + rewrite IH. split; [auto | by intros [_ ?]].
Qed.

Lemma get_Some_elem k v m : JsMap.get k m = Some v -> (k, v) ∈ m.
Proof.
  induction m as [|[k' v'] m IH]; simpl; [done|].
  case_decide; intros; simplify_eq; [left | right; auto].
Qed.

Lemma elem_values_get v m : v ∈ JsMap.values m -> exists k, (k, v) ∈ m.
Proof.
  unfold JsMap.values. rewrite list_elem_of_fmap. intros [[k v'] [-> Hin]]. by exists k.
Qed.

(* A key that is absent is appended: insertion order. *)
Lemma set_absent k v m : JsMap.get k m = None -> JsMap.set k v m = m ++ [(k, v)].
Proof.
  induction m as [|[k' v'] m IH]; simpl; [done|].
  case_decide; [done|]. intros Hm. by rewrite IH.
Qed.

(* A key that is present keeps its position. *)
Lemma keys_set_present k v m :
  is_Some (JsMap.get k m) -> JsMap.keys (JsMap.set k v m) = JsMap.keys m.
Proof.
  induction m as [|[k' v'] m IH]; simpl.
  - by intros [? ?].
  - case_decide; simpl; [done|]. intros Hm. by rewrite IH.
Qed.

Lemma Forall_set (P : K * V -> Prop) k v m :
  (forall k', P (k', v)) -> Forall P m -> Forall P (JsMap.set k v m).
Proof.
  intros Hv. induction 1 as [|[k' v'] m Hx Hm IH]; simpl.
  - by repeat constructor.
  - case_decide; constructor; auto.
Qed.

Lemma Forall_set_key (P : K * V -> Prop) k v m :
  P (k, v) -> Forall P m -> Forall P (JsMap.set k v m).
Proof.
  intros Hv. induction 1 as [|[k' v'] m Hx Hm IH]; simpl.
  - by repeat constructor.
  - case_decide; constructor; subst; auto.
Qed.

(* Looking a record up by a field that repeats its key is [get]. *)
Lemma find_values_get (key : V -> K) k m :
  Forall (fun kv => key (snd kv) = fst kv) m ->
  find (fun v => bool_decide (key v = k)) (JsMap.values m) = JsMap.get k m.
Proof.
  induction 1 as [|[k' v'] m Hx Hm IH]; simpl in *; [done|].
  rewrite Hx. destruct (decide (k = k')) as [->|Hne].
  - by rewrite bool_decide_eq_true_2.
  - rewrite bool_decide_eq_false_2; [apply IH | congruence].
Qed.

End JsMapFacts.

(** ** Every reachable store is well formed *)

Lemma keys_lt_get_None {V} (next : Z) (P : V -> Z) (m : JsMap.t Z V) :
  Forall (fun kv => P (snd kv) = fst kv /\ fst kv < next) m -> JsMap.get next m = None.
Proof.
  intros Hm. apply get_None_keys. unfold JsMap.keys. rewrite list_elem_of_fmap.
  intros [[k v] [Hk Hin]]. rewrite Forall_forall in Hm. apply Hm in Hin. simpl in *. lia.
Qed.

Lemma keys_snoc_sorted {V} (next : Z) (P : V -> Z) (v : V) (m : JsMap.t Z V) :
  Forall (fun kv => P (snd kv) = fst kv /\ fst kv < next) m ->
  StronglySorted Z.lt (JsMap.keys m) ->
  StronglySorted Z.lt (JsMap.keys (m ++ [(next, v)])).
Proof.
  intros Hm Hs. unfold JsMap.keys in *. rewrite map_app. simpl.
  apply StronglySorted_app. split_and!; [|done|repeat constructor].
  intros k1 k2 Hk1 Hk2. apply list_elem_of_singleton in Hk2 as ->.
  apply list_elem_of_fmap in Hk1 as [[k v'] [-> Hin]].
  rewrite Forall_forall in Hm. apply Hm in Hin. simpl in *. lia.
Qed.

Lemma wf_constructor : wf constructor.
Proof.
  split; try by constructor.
  assert (Hpool : Forall (fun kv => vdi_id (snd kv) = fst kv /\
                                   vdi_status (snd kv) = Free /\
                                   assignedUserId (snd kv) = None) (vdis constructor)).
  { set (pool := vdis constructor). vm_compute in pool. subst pool.
    repeat constructor. }
  eapply Forall_impl; [exact Hpool|].
  intros [k vdi] (Hid & Hst & Hnone); split; [done|].
  unfold vdi_consistent. simpl in *. rewrite Hst, Hnone. split; [intros [=] | done].
Qed.

(** The methods, with the monad unfolded. *)

Lemma assignVDI_eq vdiId userId s :
  assignVDI vdiId userId s =
  match JsMap.get vdiId (vdis s) with
  | None => (inl VDI_not_found, s)
  | Some vdi =>
      if decide (vdi_status vdi = Assigned) then (inl VDI_already_assigned, s)
      else let updatedVdi := mkVDI (vdi_id vdi) Assigned (Some userId) in
           (inr updatedVdi, with_vdis (JsMap.set vdiId updatedVdi) s)
  end.
Proof. unfold_M. destruct (JsMap.get vdiId (vdis s)); [case_decide|]; reflexivity. Qed.

Lemma unassignVDI_eq vdiId s :
  unassignVDI vdiId s =
  match JsMap.get vdiId (vdis s) with
  | None => (inl VDI_not_found, s)
  | Some vdi =>
      let updatedVdi := mkVDI (vdi_id vdi) Free None in
      (inr updatedVdi, with_vdis (JsMap.set vdiId updatedVdi) s)
  end.
Proof. unfold_M. destruct (JsMap.get vdiId (vdis s)); reflexivity. Qed.

Lemma createVDIRequest_eq v userId s :
  createVDIRequest v userId s =
  let request := mkVDIRequest (currentRequestId s) v userId Pending in
  (inr request,
   mkMemStorage (users s) (vdis s)
                (JsMap.set (currentRequestId s) request (vdiRequests s))
                (currentId s) (currentRequestId s + 1)).
Proof. reflexivity. Qed.

Lemma rejectVDIRequest_eq requestId s :
  rejectVDIRequest requestId s =
  match JsMap.get requestId (vdiRequests s) with
  | None => (inl Request_not_found, s)
  | Some request =>
      (inr (with_status request Rejected),
       with_vdiRequests (JsMap.set requestId (with_status request Rejected)) s)
  end.
Proof. unfold_M. destruct (JsMap.get requestId (vdiRequests s)); reflexivity. Qed.

Lemma approveVDIRequest_eq requestId s :
  approveVDIRequest requestId s =
  match JsMap.get requestId (vdiRequests s) with
  | None => (inl Request_not_found, s)
  | Some request =>
      let marked := with_vdiRequests
                      (JsMap.set requestId (with_status request Approved)) s in
      match assignVDI (vdiId request) (requestedByUserId request) marked with
      | (inr _, s') => (inr (with_status request Approved), s')
      | (inl e, s') => (inl e, s')
      end
  end.
Proof.
  unfold approveVDIRequest, bind, gets, modify, ret, throw.
  destruct (JsMap.get requestId (vdiRequests s)); reflexivity.
Qed.

Lemma createUser_eq insertUser s :
  createUser insertUser s =
  let user := mkUser (currentId s) (insert_username insertUser)
                     (insert_password insertUser) in
  (inr user,
   mkMemStorage (JsMap.set (currentId s) user (users s)) (vdis s) (vdiRequests s)
                (currentId s + 1) (currentRequestId s)).
Proof. reflexivity. Qed.

Lemma exec_eq c s :
  exec c s =
  match c with
  | CreateUser insertUser => snd (createUser insertUser s)
  | AssignVDI v userId => snd (assignVDI v userId s)
  | UnassignVDI v => snd (unassignVDI v s)
  | CreateVDIRequest v userId => snd (createVDIRequest v userId s)
  | ApproveVDIRequest requestId => snd (approveVDIRequest requestId s)
  | RejectVDIRequest requestId => snd (rejectVDIRequest requestId s)
  | _ => s
  end.
Proof.
  destruct c; unfold exec, invoke, fmap_M, bind, ret; try reflexivity;
    match goal with |- context [match ?m s with _ => _ end] =>
      destruct (m s) as [[?|?] ?] end; reflexivity.
Qed.

(** Each writer keeps the store well formed. *)

Lemma wf_assignVDI v userId s : wf s -> wf (snd (assignVDI v userId s)).
Proof.
  intros [Hv Hr Hrs Hu Hus]. rewrite assignVDI_eq.
  destruct (JsMap.get v (vdis s)) as [vdi|] eqn:Hget; [|by split].
  case_decide; [by split|]. split; simpl; try done.
  apply Forall_set_key; [|done].
  apply get_Some_elem in Hget. rewrite Forall_forall in Hv.
  destruct (Hv _ Hget) as [Hid _]. split; simpl in *; [done|].
  unfold vdi_consistent; simpl. split; [intros _ [=] | done].
Qed.

Lemma wf_unassignVDI v s : wf s -> wf (snd (unassignVDI v s)).
Proof.
  intros [Hv Hr Hrs Hu Hus]. rewrite unassignVDI_eq.
  destruct (JsMap.get v (vdis s)) as [vdi|] eqn:Hget; [|by split].
  split; simpl; try done.
  apply Forall_set_key; [|done].
  apply get_Some_elem in Hget. rewrite Forall_forall in Hv.
  destruct (Hv _ Hget) as [Hid _]. split; simpl in *; [done|].
  unfold vdi_consistent; simpl. split; [intros [=] | done].
Qed.

Lemma wf_createVDIRequest v userId s : wf s -> wf (snd (createVDIRequest v userId s)).
Proof.
  intros [Hv Hr Hrs Hu Hus]. rewrite createVDIRequest_eq. simpl.
  pose proof (keys_lt_get_None _ request_id _ Hr) as Hfresh.
  split; simpl; try done.
  - rewrite (set_absent _ _ _ Hfresh). apply Forall_app. split.
    + eapply Forall_impl; [exact Hr|]. intros kv [? ?]; split; [done | lia].
    + repeat constructor; simpl; lia.
  - rewrite (set_absent _ _ _ Hfresh). by eapply keys_snoc_sorted.
Qed.

Lemma wf_set_status requestId request st s :
  JsMap.get requestId (vdiRequests s) = Some request ->
  wf s -> wf (with_vdiRequests (JsMap.set requestId (with_status request st)) s).
Proof.
  intros Hget [Hv Hr Hrs Hu Hus]. split; simpl; try done.
  - apply Forall_set_key; [|done].
    apply get_Some_elem in Hget. rewrite Forall_forall in Hr.
    destruct (Hr _ Hget) as [Hid Hlt]. by split.
  - rewrite keys_set_present; [done | by rewrite Hget].
Qed.

Lemma wf_rejectVDIRequest requestId s : wf s -> wf (snd (rejectVDIRequest requestId s)).
Proof.
  intros Hwf. rewrite rejectVDIRequest_eq.
  destruct (JsMap.get requestId (vdiRequests s)) eqn:Hget; [|done].
  by apply wf_set_status.
Qed.

Lemma wf_approveVDIRequest requestId s : wf s -> wf (snd (approveVDIRequest requestId s)).
Proof.
  intros Hwf. rewrite approveVDIRequest_eq.
  destruct (JsMap.get requestId (vdiRequests s)) as [request|] eqn:Hget; [|done].
  pose proof (wf_set_status _ _ Approved _ Hget Hwf) as Hmarked.
  apply (wf_assignVDI (vdiId request) (requestedByUserId request)) in Hmarked.
  simpl. destruct (assignVDI _ _ _) as [[e|vdi] s']; exact Hmarked.
Qed.

Lemma wf_createUser insertUser s : wf s -> wf (snd (createUser insertUser s)).
Proof.
  intros [Hv Hr Hrs Hu Hus]. rewrite createUser_eq. simpl.
  pose proof (keys_lt_get_None _ user_id _ Hu) as Hfresh.
  split; simpl; try done.
  - rewrite (set_absent _ _ _ Hfresh). apply Forall_app. split.
    + eapply Forall_impl; [exact Hu|]. intros kv [? ?]; split; [done | lia].
    + repeat constructor; simpl; lia.
  - rewrite (set_absent _ _ _ Hfresh). by eapply keys_snoc_sorted.
Qed.

Lemma wf_exec c s : wf s -> wf (exec c s).
Proof.
  intros Hwf. rewrite exec_eq.
  destruct c; auto using wf_assignVDI, wf_unassignVDI, wf_createVDIRequest,
    wf_rejectVDIRequest, wf_approveVDIRequest, wf_createUser.
Qed.

Lemma reachable_wf s : reachable s -> wf s.
Proof. induction 1; [apply wf_constructor | by apply wf_exec]. Qed.

(* The seeding loop is two [createUser] writes, whatever the hashes are. *)
Lemma initializeDefaultUsers_as_calls hashPassword s :
  snd (initializeDefaultUsers hashPassword s) =
  exec (CreateUser (mkInsertUser "tinaga" (hashPassword "tinaga123")))
    (exec (CreateUser (mkInsertUser "madhav" (hashPassword "madhav123"))) s).
Proof. reflexivity. Qed.

Lemma reachable_initializeDefaultUsers hashPassword s :
  reachable s -> reachable (snd (initializeDefaultUsers hashPassword s)).
Proof.
  intros Hs. rewrite initializeDefaultUsers_as_calls. by do 2 apply reachable_exec.
Qed.

(** ** The VDI invariant *)

(** C4. In every store reachable from the initial pool by any sequence of
    calls, each VDI record has status [Assigned] if and only if its
    [assignedUserId] is not null. *)
Theorem vdi_assigned_iff_holder s vdi :
  reachable s ->
  vdi ∈ JsMap.values (vdis s) ->
  vdi_status vdi = Assigned <-> assignedUserId vdi <> None.
Proof.
  intros Hs Hin. apply reachable_wf in Hs. destruct Hs as [Hv _ _ _ _].
  apply elem_values_get in Hin as [k Hin].
  rewrite Forall_forall in Hv. by destruct (Hv _ Hin) as [_ Hc].
Qed.

Lemma vdi_assigned_iff_holder_witness :
  vdi_status (mkVDI "VDI01" Assigned (Some 1)) = Assigned <->
  assignedUserId (mkVDI "VDI01" Assigned (Some 1)) <> None.
Proof.
  apply (vdi_assigned_iff_holder held_and_requested).
  - unfold held_and_requested, seeded. reachable_now.
  - apply list_elem_of_In. vm_compute. left. reflexivity.
Defined.

(** ** [assignVDI] *)

(** C5. [assignVDI] fails with NotFound on an unknown id; fails with
    Conflict, leaving the store as it was, when the VDI is [Assigned],
    whoever asks, the holder included; otherwise it stores and returns the
    record with status [Assigned] and the caller as holder. *)
Theorem assignVDI_spec s v userId :
  (JsMap.get v (vdis s) = None ->
   exists e, assignVDI v userId s = (inl e, s) /\ kind e = Some NotFound) /\
  (forall vdi, JsMap.get v (vdis s) = Some vdi -> vdi_status vdi = Assigned ->
   exists e, assignVDI v userId s = (inl e, s) /\ kind e = Some Conflict) /\
  (forall vdi, JsMap.get v (vdis s) = Some vdi -> vdi_status vdi <> Assigned ->
   exists updated s',
     assignVDI v userId s = (inr updated, s') /\
     updated = mkVDI (vdi_id vdi) Assigned (Some userId) /\
     JsMap.get v (vdis s') = Some updated /\
     (forall v', v' <> v -> JsMap.get v' (vdis s') = JsMap.get v' (vdis s)) /\
     users s' = users s /\ vdiRequests s' = vdiRequests s).
Proof.
  rewrite assignVDI_eq. split_and!.
  - intros ->. by exists VDI_not_found.
  - intros vdi -> Hst. rewrite decide_True by done. by exists VDI_already_assigned.
  - intros vdi -> Hst. rewrite decide_False by done.
    eexists _, _. split_and!; try reflexivity; simpl.
    + apply get_set_eq.
    + intros v' Hne. by apply get_set_ne.
Qed.

Lemma assignVDI_spec_witness :
  (exists e, assignVDI "VDI10" 1 held_and_requested = (inl e, held_and_requested) /\
             kind e = Some NotFound) /\
  (exists e, assignVDI "VDI01" 1 held_and_requested = (inl e, held_and_requested) /\
             kind e = Some Conflict) /\
  (exists updated s', assignVDI "VDI02" 1 held_and_requested = (inr updated, s') /\
                      updated = mkVDI "VDI02" Assigned (Some 1)).
Proof.
  split_and!.
  - apply (assignVDI_spec held_and_requested "VDI10" 1). reflexivity.
  - apply (proj1 (proj2 (assignVDI_spec held_and_requested "VDI01" 1))
             (mkVDI "VDI01" Assigned (Some 1))); reflexivity.
  - destruct (proj2 (proj2 (assignVDI_spec held_and_requested "VDI02" 1))
                (mkVDI "VDI02" Free None)) as (updated & s' & Hrun & Hupd & _).
    + reflexivity.
    + intros [=].
    + exists updated, s'. split; [exact Hrun | exact Hupd].
Defined.

(** ** [createVDIRequest] *)

Lemma reachable_request_id_fresh s :
  reachable s -> JsMap.get (currentRequestId s) (vdiRequests s) = None.
Proof.
  intros Hs. apply reachable_wf in Hs. destruct Hs as [_ Hr _ _ _].
  exact (keys_lt_get_None _ request_id _ Hr).
Qed.

(** C9. [createVDIRequest] never fails and validates nothing: for any
    VDI id, known or not, held or not, and any user id, it takes an id that
    no stored request has, and stores and returns the [Pending] request with
    that id and the given VDI id and user id. *)
Theorem createVDIRequest_permissive s v userId :
  reachable s ->
  exists request s',
    createVDIRequest v userId s = (inr request, s') /\
    request = mkVDIRequest (currentRequestId s) v userId Pending /\
    JsMap.get (request_id request) (vdiRequests s) = None /\
    JsMap.get (request_id request) (vdiRequests s') = Some request /\
    vdis s' = vdis s /\ users s' = users s.
Proof.
  intros Hs. rewrite createVDIRequest_eq. eexists _, _.
  split_and!; try reflexivity; simpl.
  - by apply reachable_request_id_fresh.
  - apply get_set_eq.
Qed.

Lemma createVDIRequest_permissive_witness :
  exists request s',
    createVDIRequest "no such VDI" 77 held_and_requested = (inr request, s') /\
    request = mkVDIRequest 2 "no such VDI" 77 Pending.
Proof.
  destruct (createVDIRequest_permissive held_and_requested "no such VDI" 77)
    as (request & s' & Hrun & Hreq & _).
  - unfold held_and_requested, seeded. reachable_now.
  - exists request, s'. split; [exact Hrun | exact Hreq].
Defined.

(** ** Request ids *)

Lemma currentRequestId_exec c s : currentRequestId s <= currentRequestId (exec c s).
Proof.
  rewrite exec_eq. destruct c; try reflexivity.
  all: rewrite ?createVDIRequest_eq, ?approveVDIRequest_eq, ?rejectVDIRequest_eq,
         ?assignVDI_eq, ?unassignVDI_eq; simpl.
  all: repeat (match goal with
               | |- context [match JsMap.get ?k ?m with _ => _ end] =>
                   destruct (JsMap.get k m)
               | |- context [decide ?P] => destruct (decide P)
               end; rewrite ?assignVDI_eq; simpl).
  all: lia.
Qed.

Lemma run_cons c cs s :
  run (c :: cs) s = (fst (invoke c s) :: fst (run cs (exec c s)), snd (run cs (exec c s))).
Proof.
  simpl. unfold exec. destruct (invoke c s) as [r s'].
  simpl. by destruct (run cs s').
Qed.

Lemma invoke_createVDIRequest v userId s :
  fst (invoke (CreateVDIRequest v userId) s) =
  inr (ARequest (mkVDIRequest (currentRequestId s) v userId Pending)).
Proof. reflexivity. Qed.

(* From any store on, the ids handed out start at the counter and increase. *)
Lemma createdRequestIds_from cs s :
  Forall (fun id => currentRequestId s <= id) (createdRequestIds cs (fst (run cs s))) /\
  StronglySorted Z.lt (createdRequestIds cs (fst (run cs s))).
Proof.
  revert s. induction cs as [|c cs IH]; intros s; [by split; constructor|].
  rewrite run_cons. cbn [fst].
  destruct (IH (exec c s)) as [Hge Hsorted].
  pose proof (currentRequestId_exec c s) as Hmono.
  assert (Hge' : Forall (fun id => currentRequestId s <= id)
                        (createdRequestIds cs (fst (run cs (exec c s))))).
  { eapply Forall_impl; [exact Hge|]. simpl. intros; lia. }
  destruct c as [| | | | | |v userId| | |]; try (split; assumption).
  assert (Hnext : currentRequestId (exec (CreateVDIRequest v userId) s)
                  = currentRequestId s + 1) by reflexivity.
  rewrite Hnext in Hge.
  cbn [createdRequestIds]. rewrite invoke_createVDIRequest. cbn [allocated app request_id].
  split.
  - constructor; [lia | exact Hge'].
  - constructor; [exact Hsorted|].
    eapply Forall_impl; [exact Hge|]. intros id Hid. cbv beta in Hid. lia.
Qed.

(** C7. Over any sequence of calls on a fresh store, the ids that
    [createVDIRequest] hands out are strictly increasing in call order and
    so pairwise distinct, whatever approvals and rejections come between. *)
Theorem request_ids_strictly_increasing cs :
  StronglySorted Z.lt (createdRequestIds cs (fst (run cs constructor))) /\
  NoDup (createdRequestIds cs (fst (run cs constructor))).
Proof.
  destruct (createdRequestIds_from cs constructor) as [_ Hsorted].
  split; [exact Hsorted|].
  induction Hsorted as [|id ids Hs IH Hlt]; constructor; [|exact IH].
  intros Hin. rewrite Forall_forall in Hlt.
  specialize (Hlt _ Hin). lia.
Qed.

Example request_ids_after_rejection :
  createdRequestIds
    [CreateVDIRequest "VDI01" 1; RejectVDIRequest 1; CreateVDIRequest "VDI01" 1;
     ApproveVDIRequest 2; CreateVDIRequest "VDI02" 2]
    (fst (run [CreateVDIRequest "VDI01" 1; RejectVDIRequest 1; CreateVDIRequest "VDI01" 1;
               ApproveVDIRequest 2; CreateVDIRequest "VDI02" 2] constructor))
  = [1; 2; 3].
Proof. vm_compute. reflexivity. Qed.

(** ** The identity store *)

Lemma find_first_match {A} (f : A -> bool) (l : list A) (x : A) :
  x ∈ l -> f x = true ->
  exists y before after,
    find f l = Some y /\ l = before ++ y :: after /\
    Forall (fun w => f w = false) before /\ f y = true /\ (x = y \/ x ∈ after).
Proof.
  intros Hin Hx. induction l as [|a l IH]; [by apply elem_of_nil in Hin|].
  simpl. destruct (f a) eqn:Ha.
  - exists a, [], l. split_and!; try done.
    apply elem_of_cons in Hin as [->|Hin]; auto.
  - apply elem_of_cons in Hin as [->|Hin]; [congruence|].
    destruct (IH Hin) as (y & before & after & Hfind & -> & Hb & Hy & Hor).
    exists y, (a :: before), after. split_and!; try done. by constructor.
Qed.

Lemma user_ids_are_keys next (m : JsMap.t Z User) :
  Forall (user_entry_ok next) m -> map user_id (JsMap.values m) = JsMap.keys m.
Proof.
  induction 1 as [|[k u] m [Hid _] Hm IH]; simpl in *; [done|].
  by rewrite Hid, IH.
Qed.

(* A new user gets an id above every stored one and goes to the end. *)
Lemma createUser_appends insertUser s :
  reachable s ->
  users (snd (createUser insertUser s)) =
  users s ++ [(currentId s, mkUser (currentId s) (insert_username insertUser)
                                   (insert_password insertUser))] /\
  Forall (fun kv => user_id (snd kv) < currentId s) (users s).
Proof.
  intros Hs. apply reachable_wf in Hs. destruct Hs as [_ _ _ Hu _].
  rewrite createUser_eq. simpl. split.
  - apply set_absent. exact (keys_lt_get_None _ user_id _ Hu).
  - eapply Forall_impl; [exact Hu|]. intros kv [Hid Hlt]. lia.
Qed.

(** C10. Whenever users with the wanted username are stored (two or more,
    since [createUser] checks nothing, or one), [getUserByUsername] returns
    the match that stands first in insertion order: no user before it has
    that username, and its id, given out at creation from the increasing
    counter, is the least among the matches. *)
Theorem getUserByUsername_earliest s name u :
  reachable s ->
  u ∈ JsMap.values (users s) ->
  username u = name ->
  exists first before after,
    getUserByUsername name s = (inr (Some first), s) /\
    JsMap.values (users s) = before ++ first :: after /\
    Forall (fun w => username w <> name) before /\
    username first = name /\
    user_id first <= user_id u.
Proof.
  intros Hs Hin Hname. apply reachable_wf in Hs. destruct Hs as [_ _ _ Hu Hsorted].
  destruct (find_first_match (fun user => bool_decide (username user = name))
              (JsMap.values (users s)) u Hin)
    as (first & before & after & Hfind & Hsplit & Hbefore & Hfirst & Hor).
  { by apply bool_decide_eq_true_2. }
  exists first, before, after. unfold getUserByUsername, gets. rewrite Hfind.
  split_and!; try done.
  - eapply Forall_impl; [exact Hbefore|]. intros w Hw.
    by apply bool_decide_eq_false_1 in Hw.
  - by apply bool_decide_eq_true_1 in Hfirst.
  - destruct Hor as [->|Hafter]; [lia|].
    rewrite <- (user_ids_are_keys _ _ Hu), Hsplit, map_app in Hsorted.
    apply StronglySorted_app_1_r in Hsorted. simpl in Hsorted.
    apply StronglySorted_cons in Hsorted as [Hlt _].
    rewrite Forall_forall in Hlt.
    assert (user_id first < user_id u); [|lia].
    apply Hlt. apply list_elem_of_fmap. by exists u.
Qed.

(* madhav registered a second time after tinaga: ids 1, 2, 3. *)
Lemma getUserByUsername_earliest_witness :
  exists first before after,
    getUserByUsername "madhav" (exec (CreateUser madhav) seeded)
      = (inr (Some first), exec (CreateUser madhav) seeded) /\
    JsMap.values (users (exec (CreateUser madhav) seeded)) = before ++ first :: after /\
    Forall (fun w => username w <> "madhav") before /\
    username first = "madhav" /\
    user_id first <= 3.
Proof.
  apply (getUserByUsername_earliest (exec (CreateUser madhav) seeded) "madhav"
           (mkUser 3 "madhav" "hash-of-madhav123")).
  - unfold seeded. reachable_now.
  - apply list_elem_of_In. vm_compute. right. right. left. reflexivity.
  - reflexivity.
Defined.

Example getUserByUsername_duplicate :
  fst (getUserByUsername "madhav" (exec (CreateUser madhav) seeded))
  = inr (Some (mkUser 1 "madhav" "hash-of-madhav123")).
Proof. vm_compute. reflexivity. Qed.

(** C8, as the code has it. [createUser] never fails: it takes the next user
    id, stores the user under it and returns it, whether or not a stored
    user already has the username. *)
Theorem createUser_total s insertUser :
  exists user s',
    createUser insertUser s = (inr user, s') /\
    user = mkUser (currentId s) (insert_username insertUser)
                  (insert_password insertUser) /\
    JsMap.get (user_id user) (users s') = Some user /\
    currentId s' = currentId s + 1.
Proof.
  rewrite createUser_eq. eexists _, _. split_and!; try reflexivity.
  simpl. apply get_set_eq.
Qed.

(** C8, refuted as stated: "madhav" is taken in [seeded], and creating
    "madhav" again returns a second user instead of failing with Conflict. *)
Lemma createUser_taken_username_succeeds :
  fst (getUserByUsername "madhav" seeded)
    = inr (Some (mkUser 1 "madhav" "hash-of-madhav123")) /\
  fst (createUser (mkInsertUser "madhav" "another-hash") seeded)
    = inr (mkUser 3 "madhav" "another-hash") /\
  ~ (exists e, fst (createUser (mkInsertUser "madhav" "another-hash") seeded) = inl e).
Proof.
  split_and!; [vm_compute; reflexivity .. |].
  intros [e He]. vm_compute in He. discriminate He.
Qed.

(** ** [approveVDIRequest] and [rejectVDIRequest] *)

(* [assignVDI] reads and writes the VDI map only. *)
Lemma assignVDI_with_vdiRequests f v userId s :
  assignVDI v userId (with_vdiRequests f s) =
  (fst (assignVDI v userId s), with_vdiRequests f (snd (assignVDI v userId s))).
Proof.
  rewrite !assignVDI_eq. simpl.
  destruct (JsMap.get v (vdis s)); [case_decide|]; reflexivity.
Qed.

(* The approval is the status write followed by the assignment. *)
Lemma approveVDIRequest_found requestId request s :
  JsMap.get requestId (vdiRequests s) = Some request ->
  approveVDIRequest requestId s =
  (match fst (assignVDI (vdiId request) (requestedByUserId request) s) with
   | inr _ => inr (with_status request Approved)
   | inl e => inl e
   end,
   with_vdiRequests (JsMap.set requestId (with_status request Approved))
     (snd (assignVDI (vdiId request) (requestedByUserId request) s))).
Proof.
  intros Hget. rewrite approveVDIRequest_eq, Hget. cbv zeta.
  rewrite assignVDI_with_vdiRequests.
  by destruct (fst (assignVDI _ _ s)).
Qed.

(* The approval on every store: it runs [assignVDI] under that method's own
   guard, returns exactly when the VDI is known and not [Assigned], and
   fails with the error of [assignVDI] otherwise. *)
Theorem approveVDIRequest_spec s requestId request :
  JsMap.get requestId (vdiRequests s) = Some request ->
  let V := vdiId request in
  let U := requestedByUserId request in
  vdis (snd (approveVDIRequest requestId s)) = vdis (snd (assignVDI V U s)) /\
  (forall e, fst (approveVDIRequest requestId s) = inl e <->
             fst (assignVDI V U s) = inl e) /\
  ((exists updated, fst (approveVDIRequest requestId s) = inr updated) <->
   (exists vdi, JsMap.get V (vdis s) = Some vdi /\ vdi_status vdi <> Assigned)) /\
  (forall updated, fst (approveVDIRequest requestId s) = inr updated ->
     updated = with_status request Approved /\
     JsMap.get requestId (vdiRequests (snd (approveVDIRequest requestId s)))
       = Some updated /\
     exists vdi,
       JsMap.get V (vdis (snd (approveVDIRequest requestId s))) = Some vdi /\
       vdi_status vdi = Assigned /\ assignedUserId vdi = Some U) /\
  (forall vdi, JsMap.get V (vdis s) = Some vdi -> vdi_status vdi = Assigned ->
     exists e, fst (approveVDIRequest requestId s) = inl e /\
               kind e = Some Conflict /\
               vdis (snd (approveVDIRequest requestId s)) = vdis s).
Proof.
  intros Hget V U. rewrite (approveVDIRequest_found _ _ _ Hget). fold V U.
  cbn [fst snd]. rewrite assignVDI_eq.
  destruct (JsMap.get V (vdis s)) as [vdi|] eqn:HV; [case_decide as Hst|]; cbn.
  - split_and!.
    + reflexivity.
    + intros e. split; intros [= <-]; reflexivity.
    + split; [intros [? [=]] | intros (vdi' & Heq & Hne)].
      injection Heq as <-. done.
    + intros ? [=].
    + intros vdi' _ _. by exists VDI_already_assigned.
  - split_and!.
    + reflexivity.
    + intros e. split; intros [=].
    + split; intros _; [by exists vdi | by eexists].
    + intros updated [= <-]. split_and!; [done | apply get_set_eq |].
      eexists. split; [apply get_set_eq | done].
    + intros vdi' Heq Hst'. injection Heq as <-. done.
  - split_and!.
    + reflexivity.
    + intros e. split; intros [= <-]; reflexivity.
    + split; [intros [? [=]] | intros (vdi' & [=] & _)].
    + intros ? [=].
    + intros vdi' [=].
Qed.

Lemma approveVDIRequest_spec_witness :
  (exists updated, fst (approveVDIRequest 1 rejected_once) = inr updated) <->
  (exists vdi, JsMap.get "VDI03" (vdis rejected_once) = Some vdi /\
               vdi_status vdi <> Assigned).
Proof.
  apply (approveVDIRequest_spec rejected_once 1 (mkVDIRequest 1 "VDI03" 2 Rejected)).
  reflexivity.
Defined.

(** C1, the code at the failing input. User 1 holds VDI01 and user 2 has
    asked for it: request 1, [Pending].  Approving request 1 throws "VDI
    already assigned" and VDI01's record still has user 1 as holder, not
    user 2: the holder is not released before [assignVDI] is called, so
    ownership is not transferred.  Through the routes, user 1's approval
    of the request user 2 has just made is answered 400. *)
Theorem approve_does_not_transfer :
  JsMap.get "VDI01" (vdis held_and_requested) = Some (mkVDI "VDI01" Assigned (Some 1)) /\
  JsMap.get 1 (vdiRequests held_and_requested)
    = Some (mkVDIRequest 1 "VDI01" 2 Pending) /\
  fst (approveVDIRequest 1 held_and_requested) = inl VDI_already_assigned /\
  JsMap.get "VDI01" (vdis (snd (approveVDIRequest 1 held_and_requested)))
    = Some (mkVDI "VDI01" Assigned (Some 1)) /\
  JsMap.get "VDI01" (vdis (snd (approveVDIRequest 1 held_and_requested)))
    <> Some (mkVDI "VDI01" Assigned (Some 2)) /\
  response
    (approveRoute all_clients (Some (mkUser 1 "madhav" "hash-of-madhav123")) (Some 1)
       (store (requestRoute all_clients sockets
                 (Some (mkUser 2 "tinaga" "hash-of-tinaga123")) "VDI01"
                 taken_by_madhav)))
    = json400 "VDI already assigned".
Proof. vm_compute. repeat split. discriminate. Qed.

(** C2, the code at the failing input. User 1 holds VDI01 and request 1 is
    [Pending]; approving it throws "VDI already assigned" to the caller, and
    the store it leaves has request 1 as [Approved] with VDI01 still held by
    user 1. *)
Theorem approve_conflict_leaves_request_approved :
  JsMap.get 1 (vdiRequests held_and_requested)
    = Some (mkVDIRequest 1 "VDI01" 2 Pending) /\
  fst (approveVDIRequest 1 held_and_requested) = inl VDI_already_assigned /\
  kind VDI_already_assigned = Some Conflict /\
  JsMap.get 1 (vdiRequests (snd (approveVDIRequest 1 held_and_requested)))
    = Some (mkVDIRequest 1 "VDI01" 2 Approved) /\
  JsMap.get "VDI01" (vdis (snd (approveVDIRequest 1 held_and_requested)))
    = Some (mkVDI "VDI01" Assigned (Some 1)).
Proof. vm_compute. repeat split. Qed.

(* The same for every store: a failed assignment leaves the request Approved. *)
Lemma approve_failure_marks_request requestId request s e :
  JsMap.get requestId (vdiRequests s) = Some request ->
  fst (assignVDI (vdiId request) (requestedByUserId request) s) = inl e ->
  fst (approveVDIRequest requestId s) = inl e /\
  JsMap.get requestId (vdiRequests (snd (approveVDIRequest requestId s)))
    = Some (with_status request Approved).
Proof.
  intros Hget Hfail. rewrite (approveVDIRequest_found _ _ _ Hget), Hfail. cbn.
  split; [done | apply get_set_eq].
Qed.

(** ** The history of a request *)

Lemma vdiRequests_assignVDI v userId s :
  vdiRequests (snd (assignVDI v userId s)) = vdiRequests s.
Proof.
  rewrite assignVDI_eq. destruct (JsMap.get v (vdis s)); [case_decide|]; reflexivity.
Qed.

Lemma vdiRequests_unassignVDI v s : vdiRequests (snd (unassignVDI v s)) = vdiRequests s.
Proof. rewrite unassignVDI_eq. destruct (JsMap.get v (vdis s)); reflexivity. Qed.

Lemma vdiRequests_approve requestId s :
  vdiRequests (snd (approveVDIRequest requestId s)) =
  match JsMap.get requestId (vdiRequests s) with
  | Some request => JsMap.set requestId (with_status request Approved) (vdiRequests s)
  | None => vdiRequests s
  end.
Proof.
  destruct (JsMap.get requestId (vdiRequests s)) as [request|] eqn:Hget.
  - rewrite (approveVDIRequest_found _ _ _ Hget). cbn [snd]. unfold with_vdiRequests.
    cbn [vdiRequests]. by rewrite vdiRequests_assignVDI.
  - by rewrite approveVDIRequest_eq, Hget.
Qed.

Lemma vdiRequests_reject requestId s :
  vdiRequests (snd (rejectVDIRequest requestId s)) =
  match JsMap.get requestId (vdiRequests s) with
  | Some request => JsMap.set requestId (with_status request Rejected) (vdiRequests s)
  | None => vdiRequests s
  end.
Proof.
  rewrite rejectVDIRequest_eq. by destruct (JsMap.get requestId (vdiRequests s)).
Qed.

(** C3, as the code has it. A stored request is never removed and keeps its
    id, VDI id and requester through every call; its status stays as it is
    except under a call on this request: [rejectVDIRequest] stores it
    [Rejected] and an [approveVDIRequest] that returns stores it [Approved],
    whatever its status was, [Approved] and [Rejected] included. *)
Theorem request_history_kept c s requestId request :
  reachable s ->
  JsMap.get requestId (vdiRequests s) = Some request ->
  (exists request',
     JsMap.get requestId (vdiRequests (exec c s)) = Some request' /\
     request_id request' = request_id request /\
     vdiId request' = vdiId request /\
     requestedByUserId request' = requestedByUserId request /\
     (request_status request' = request_status request \/
      (c = ApproveVDIRequest requestId /\ request_status request' = Approved) \/
      (c = RejectVDIRequest requestId /\ request_status request' = Rejected))) /\
  JsMap.get requestId (vdiRequests (exec (RejectVDIRequest requestId) s))
    = Some (with_status request Rejected) /\
  (forall updated, fst (approveVDIRequest requestId s) = inr updated ->
     JsMap.get requestId (vdiRequests (exec (ApproveVDIRequest requestId) s))
       = Some (with_status request Approved)).
Proof.
  intros Hs Hget. split_and!.
  - rewrite exec_eq.
    destruct c as [| |insertUser| |v userId|v|v userId|r|r|];
      try (exists request; split_and!; try done; by left).
    + exists request. rewrite vdiRequests_assignVDI. split_and!; try done. by left.
    + exists request. rewrite vdiRequests_unassignVDI. split_and!; try done. by left.
    + exists request. rewrite createVDIRequest_eq. cbn.
      rewrite get_set_ne; [split_and!; try done; by left|].
      intros <-. rewrite (reachable_request_id_fresh _ Hs) in Hget. done.
    + rewrite vdiRequests_approve. destruct (decide (r = requestId)) as [->|Hne].
      * rewrite Hget, get_set_eq. eexists. split_and!; try done. right. left. done.
      * exists request. destruct (JsMap.get r (vdiRequests s));
          rewrite ?get_set_ne by done; split_and!; try done; by left.
    + rewrite vdiRequests_reject. destruct (decide (r = requestId)) as [->|Hne].
      * rewrite Hget, get_set_eq. eexists. split_and!; try done. right. right. done.
      * exists request. destruct (JsMap.get r (vdiRequests s));
          rewrite ?get_set_ne by done; split_and!; try done; by left.
  - rewrite exec_eq, vdiRequests_reject, Hget. apply get_set_eq.
  - intros _ _. rewrite exec_eq, vdiRequests_approve, Hget. apply get_set_eq.
Qed.

Lemma request_history_kept_witness :
  JsMap.get 1 (vdiRequests (exec (RejectVDIRequest 1) held_and_requested))
    = Some (mkVDIRequest 1 "VDI01" 2 Rejected).
Proof.
  apply (request_history_kept GetVDIs held_and_requested 1
           (mkVDIRequest 1 "VDI01" 2 Pending)).
  - unfold held_and_requested, seeded. reachable_now.
  - reflexivity.
Defined.

(** C3, refuted as stated. Request 1 is [Rejected] in [rejected_once], a
    reachable store; approving it returns and leaves it [Approved], and
    rejecting it after that leaves it [Rejected] again. *)
Lemma terminal_status_changes :
  reachable rejected_once /\
  request_status <$> JsMap.get 1 (vdiRequests rejected_once) = Some Rejected /\
  fst (approveVDIRequest 1 rejected_once)
    = inr (mkVDIRequest 1 "VDI03" 2 Approved) /\
  request_status <$> JsMap.get 1 (vdiRequests (exec (ApproveVDIRequest 1) rejected_once))
    = Some Approved /\
  request_status <$>
    JsMap.get 1 (vdiRequests (exec (RejectVDIRequest 1)
                                (exec (ApproveVDIRequest 1) rejected_once)))
    = Some Rejected.
Proof.
  split; [unfold rejected_once, seeded; reachable_now|].
  vm_compute. repeat split.
Qed.

(** ** The holder notification *)

Lemma request_ids_are_keys next (m : JsMap.t Z VDIRequest) :
  Forall (request_entry_ok next) m -> map request_id (JsMap.values m) = JsMap.keys m.
Proof.
  induction 1 as [|[k r] m [Hid _] Hm IH]; simpl in *; [done|].
  by rewrite Hid, IH.
Qed.

(* In a reachable store the last request is the one created last: no stored
   request has a greater id. *)
Lemma last_request_is_latest s r r' :
  reachable s ->
  last (JsMap.values (vdiRequests s)) = Some r ->
  r' ∈ JsMap.values (vdiRequests s) ->
  request_id r' <= request_id r.
Proof.
  intros Hs Hlast Hin. apply reachable_wf in Hs. destruct Hs as [_ Hr Hsorted _ _].
  rewrite <- (request_ids_are_keys _ _ Hr) in Hsorted.
  apply last_Some in Hlast as [front Hsplit]. rewrite Hsplit in Hin, Hsorted.
  rewrite map_app in Hsorted. simpl in Hsorted.
  apply elem_of_app in Hin as [Hin|Hin].
  - assert (request_id r' < request_id r); [|lia].
    eapply (StronglySorted_app_1_elem_of _ _ _ _ _ Hsorted).
    + apply list_elem_of_fmap. by exists r'.
    + apply list_elem_of_singleton. reflexivity.
  - apply list_elem_of_singleton in Hin as ->. lia.
Qed.

Lemma holder_lookup v s :
  reachable s ->
  find (fun vdi => bool_decide (vdi_id vdi = v)) (JsMap.values (vdis s))
  = JsMap.get v (vdis s).
Proof.
  intros Hs. apply reachable_wf in Hs. destruct Hs as [Hv _ _ _ _].
  apply find_values_get. eapply Forall_impl; [exact Hv|]. by intros kv [Hid _].
Qed.

Lemma stored_user_id uid ru s :
  reachable s -> JsMap.get uid (users s) = Some ru -> user_id ru = uid.
Proof.
  intros Hs Hget. apply reachable_wf in Hs. destruct Hs as [_ _ _ Hu _].
  apply get_Some_elem in Hget. rewrite Forall_forall in Hu.
  by destruct (Hu _ Hget) as [Hid _].
Qed.

(* What is sent when there is a holder, a requesting user and a request. *)
Lemma notify_sends conns v uid s :
  reachable s ->
  forall h ru r,
    JsMap.get v (vdis s) ≫= assignedUserId = Some h -> h <> 0 ->
    JsMap.get uid (users s) = Some ru ->
    last (JsMap.values (vdiRequests s)) = Some r ->
    notifyVDIRequest conns v uid s =
      map (fun client => send client (vdi_request uid (username ru) v (request_id r)))
          (filter (fun client => readyState client = OPEN)
                  (default [] (JsMap.get h conns))).
Proof.
  intros Hs h ru r Hh Hnz Hru Hlast. unfold notifyVDIRequest.
  rewrite (holder_lookup _ _ Hs), Hh, Hru, Hlast.
  rewrite (stored_user_id _ _ _ Hs Hru). cbn [truthy].
  rewrite (proj2 (Z.eqb_neq h 0) Hnz). cbn [negb].
  by destruct (JsMap.get h conns).
Qed.

(* The notification on any reachable store, also one its call site never
   sees: it names the last stored request and sends only when the holder's
   id is not 0 and the requesting user is stored. *)
Theorem notifyVDIRequest_spec conns v uid s :
  reachable s ->
  let holder := JsMap.get v (vdis s) ≫= assignedUserId in
  (holder = None -> notifyVDIRequest conns v uid s = []) /\
  (JsMap.get uid (users s) = None -> notifyVDIRequest conns v uid s = []) /\
  (forall h ru, holder = Some h -> h <> 0 -> JsMap.get uid (users s) = Some ru ->
     vdiRequests s = [] -> notifyVDIRequest conns v uid s = [console_error]) /\
  (forall h ru r,
     holder = Some h -> h <> 0 ->
     JsMap.get uid (users s) = Some ru ->
     last (JsMap.values (vdiRequests s)) = Some r ->
     let message := vdi_request uid (username ru) v (request_id r) in
     notifyVDIRequest conns v uid s =
       map (fun client => send client message)
           (filter (fun client => readyState client = OPEN)
                   (default [] (JsMap.get h conns))) /\
     (forall r', r' ∈ JsMap.values (vdiRequests s) -> request_id r' <= request_id r) /\
     (forall ev, ev ∈ notifyVDIRequest conns v uid s ->
        exists client, ev = send client message /\
                       client ∈ default [] (JsMap.get h conns) /\
                       readyState client = OPEN)).
Proof.
  intros Hs holder.
  pose proof (notify_sends conns v uid s Hs) as Hsent. fold holder in Hsent.
  split_and!.
  - intros Hnone. unfold notifyVDIRequest.
    rewrite (holder_lookup _ _ Hs). fold holder. by rewrite Hnone.
  - intros Hnone. unfold notifyVDIRequest.
    rewrite (holder_lookup _ _ Hs). fold holder. rewrite Hnone. by destruct holder.
  - intros h ru Hh Hnz Hru Hempty. unfold notifyVDIRequest.
    rewrite (holder_lookup _ _ Hs). fold holder. rewrite Hh, Hru, Hempty.
    cbn [truthy]. rewrite (proj2 (Z.eqb_neq h 0) Hnz). reflexivity.
  - intros h ru r Hh Hnz Hru Hlast message. split_and!.
    + by apply Hsent.
    + intros r' Hin. by eapply last_request_is_latest.
    + intros ev. rewrite (Hsent h ru r) by done.
      rewrite list_elem_of_fmap. intros [client [-> Hin]].
      apply list_elem_of_filter in Hin as [Hopen Hin]. by exists client.
Qed.

Lemma notifyVDIRequest_spec_witness :
  notifyVDIRequest sockets "VDI01" 2 two_requests =
  [send (mkWebSocket 10 OPEN) (vdi_request 2 "tinaga" "VDI01" 2)].
Proof.
  destruct (notifyVDIRequest_spec sockets "VDI01" 2 two_requests)
    as (_ & _ & _ & Hsent).
  - unfold two_requests, seeded. reachable_now.
  - destruct (Hsent 1 (mkUser 2 "tinaga" "hash-of-tinaga123")
                (mkVDIRequest 2 "VDI02" 2 Pending)) as [Heq _].
    + reflexivity.
    + discriminate.
    + reflexivity.
    + reflexivity.
    + exact Heq.
Defined.

(* Called on the store [createVDIRequest] has just left, for the same VDI
   and user, the notification names the request just created. *)
Lemma notify_after_create conns v uid s h ru :
  reachable s ->
  JsMap.get v (vdis s) ≫= assignedUserId = Some h -> h <> 0 ->
  JsMap.get uid (users s) = Some ru ->
  notifyVDIRequest conns v uid (snd (createVDIRequest v uid s)) =
  map (fun client => send client (vdi_request uid (username ru) v (currentRequestId s)))
      (filter (fun client => readyState client = OPEN) (default [] (JsMap.get h conns))).
Proof.
  intros Hs Hh Hnz Hru.
  assert (Hs' : reachable (exec (CreateVDIRequest v uid) s)) by by apply reachable_exec.
  apply (notify_sends conns v uid _ Hs' h ru
           (mkVDIRequest (currentRequestId s) v uid Pending)); try done.
  rewrite exec_eq, createVDIRequest_eq. cbn.
  rewrite (set_absent _ _ _ (reachable_request_id_fresh _ Hs)).
  unfold JsMap.values. rewrite map_app. apply last_snoc.
Qed.

(** ** What each call writes *)

Lemma snd_run_cons c cs s : snd (run (c :: cs) s) = snd (run cs (exec c s)).
Proof. by rewrite run_cons. Qed.

Lemma reachable_run cs s : reachable s -> reachable (snd (run cs s)).
Proof.
  revert s. induction cs as [|c cs IH]; intros s Hs; [done|].
  rewrite snd_run_cons. by apply IH, reachable_exec.
Qed.

Lemma vdis_approve requestId request s :
  JsMap.get requestId (vdiRequests s) = Some request ->
  vdis (snd (approveVDIRequest requestId s)) =
  vdis (snd (assignVDI (vdiId request) (requestedByUserId request) s)).
Proof. intros Hget. by rewrite (approveVDIRequest_found _ _ _ Hget). Qed.

Lemma vdis_approve_unknown requestId s :
  JsMap.get requestId (vdiRequests s) = None ->
  approveVDIRequest requestId s = (inl Request_not_found, s).
Proof. intros Hget. by rewrite approveVDIRequest_eq, Hget. Qed.

(* The VDI map after [assignVDI]. *)
Lemma vdis_assignVDI v userId s :
  vdis (snd (assignVDI v userId s)) =
  match JsMap.get v (vdis s) with
  | Some vdi =>
      if decide (vdi_status vdi = Assigned) then vdis s
      else JsMap.set v (mkVDI (vdi_id vdi) Assigned (Some userId)) (vdis s)
  | None => vdis s
  end.
Proof.
  rewrite assignVDI_eq. destruct (JsMap.get v (vdis s)); [case_decide|]; reflexivity.
Qed.

Lemma vdis_unassignVDI v s :
  vdis (snd (unassignVDI v s)) =
  match JsMap.get v (vdis s) with
  | Some vdi => JsMap.set v (mkVDI (vdi_id vdi) Free None) (vdis s)
  | None => vdis s
  end.
Proof. rewrite unassignVDI_eq. by destruct (JsMap.get v (vdis s)). Qed.

Lemma vdis_reject requestId s : vdis (snd (rejectVDIRequest requestId s)) = vdis s.
Proof. rewrite rejectVDIRequest_eq. by destruct (JsMap.get requestId (vdiRequests s)). Qed.

(* Only [assignVDI], [unassignVDI] and [approveVDIRequest] write the VDI map. *)
Lemma vdis_exec c s :
  vdis (exec c s) =
  match c with
  | AssignVDI v userId => vdis (snd (assignVDI v userId s))
  | UnassignVDI v => vdis (snd (unassignVDI v s))
  | ApproveVDIRequest requestId =>
      match JsMap.get requestId (vdiRequests s) with
      | Some request =>
          vdis (snd (assignVDI (vdiId request) (requestedByUserId request) s))
      | None => vdis s
      end
  | _ => vdis s
  end.
Proof.
  rewrite exec_eq. destruct c as [| | | | | | |r|r|]; try reflexivity.
  - destruct (JsMap.get r (vdiRequests s)) as [request|] eqn:Hget.
    + by apply vdis_approve.
    + by rewrite vdis_approve_unknown.
  - apply vdis_reject.
Qed.

Lemma keys_vdis_assignVDI v userId s :
  JsMap.keys (vdis (snd (assignVDI v userId s))) = JsMap.keys (vdis s).
Proof.
  rewrite vdis_assignVDI. destruct (JsMap.get v (vdis s)) eqn:Hget; [|done].
  case_decide; [done|]. apply keys_set_present. by rewrite Hget.
Qed.

Lemma keys_vdis_exec c s : JsMap.keys (vdis (exec c s)) = JsMap.keys (vdis s).
Proof.
  rewrite vdis_exec. destruct c as [| | | |v u|v| |r| |]; try reflexivity.
  - apply keys_vdis_assignVDI.
  - rewrite vdis_unassignVDI. destruct (JsMap.get v (vdis s)) eqn:Hget; [|done].
    apply keys_set_present. by rewrite Hget.
  - destruct (JsMap.get r (vdiRequests s)); [apply keys_vdis_assignVDI | done].
Qed.

Lemma vdi_ids_are_keys (m : JsMap.t string VDI) :
  Forall vdi_entry_ok m -> map vdi_id (JsMap.values m) = JsMap.keys m.
Proof.
  induction 1 as [|[k vdi] m [Hid _] Hm IH]; simpl in *; [done|].
  by rewrite Hid, IH.
Qed.

(** ** The pool *)

(** X1. The pool never grows, shrinks or reorders: in every reachable
    store [getVDIs] lists exactly VDI01 to VDI09, in that order. *)
Theorem vdi_pool_fixed s :
  reachable s ->
  exists l, getVDIs s = (inr l, s) /\
    map vdi_id l =
    ["VDI01"; "VDI02"; "VDI03"; "VDI04"; "VDI05"; "VDI06"; "VDI07"; "VDI08"; "VDI09"].
Proof.
  intros Hs. eexists. split; [reflexivity|].
  rewrite (vdi_ids_are_keys _ (wf_vdis _ (reachable_wf _ Hs))).
  induction Hs as [|c s Hs IH]; [apply constructor_pool|].
  by rewrite keys_vdis_exec.
Qed.

Lemma vdi_pool_fixed_witness :
  exists l, getVDIs two_requests = (inr l, two_requests) /\
    map vdi_id l =
    ["VDI01"; "VDI02"; "VDI03"; "VDI04"; "VDI05"; "VDI06"; "VDI07"; "VDI08"; "VDI09"].
Proof.
  apply (vdi_pool_fixed two_requests). unfold two_requests, seeded. reachable_now.
Defined.

(** X2. A VDI record changes only under a call that addresses this VDI:
    [assignVDI] or [unassignVDI] with its id, or [approveVDIRequest] of a
    request for it.  Every other call leaves the record as it is. *)
Theorem vdi_record_frame c s v :
  (forall userId, c <> AssignVDI v userId) ->
  c <> UnassignVDI v ->
  (forall requestId request, c = ApproveVDIRequest requestId ->
     JsMap.get requestId (vdiRequests s) = Some request -> vdiId request <> v) ->
  JsMap.get v (vdis (exec c s)) = JsMap.get v (vdis s).
Proof.
  intros Hassign Hunassign Happrove. rewrite vdis_exec.
  assert (Hother : forall v' userId, v' <> v ->
            JsMap.get v (vdis (snd (assignVDI v' userId s))) = JsMap.get v (vdis s)).
  { intros v' userId Hne. rewrite vdis_assignVDI.
    destruct (JsMap.get v' (vdis s)); [case_decide|]; try done. by apply get_set_ne. }
  destruct c as [| | | |v' userId|v'| |r| |]; try reflexivity.
  - apply Hother. intros ->. by apply (Hassign userId).
  - rewrite vdis_unassignVDI. destruct (JsMap.get v' (vdis s)); [|done].
    apply get_set_ne. by intros ->.
  - destruct (JsMap.get r (vdiRequests s)) as [request|] eqn:Hget; [|done].
    apply Hother. by eapply Happrove.
Qed.

Lemma vdi_record_frame_witness :
  JsMap.get "VDI01" (vdis (exec (ApproveVDIRequest 2) two_requests))
  = JsMap.get "VDI01" (vdis two_requests).
Proof.
  apply (vdi_record_frame (ApproveVDIRequest 2) two_requests "VDI01").
  - intros userId. discriminate.
  - discriminate.
  - intros requestId request [= <-]. vm_compute. intros [= <-]. discriminate.
Defined.

(** X3. An assigned VDI keeps its record, holder included, through any
    sequence of calls that does not contain [unassignVDI] for it: neither
    [assignVDI] nor an approval takes a VDI from its holder. *)
Theorem holder_kept_until_unassigned cs s v vdi :
  Forall (fun c => c <> UnassignVDI v) cs ->
  JsMap.get v (vdis s) = Some vdi ->
  vdi_status vdi = Assigned ->
  JsMap.get v (vdis (snd (run cs s))) = Some vdi.
Proof.
  intros Hcs. revert s. induction Hcs as [|c cs Hc Hcs IH]; intros s Hget Hst; [done|].
  rewrite snd_run_cons. apply IH; [|done].
  assert (Hkeep : forall v' userId,
            JsMap.get v (vdis (snd (assignVDI v' userId s))) = Some vdi).
  { intros v' userId. rewrite vdis_assignVDI.
    destruct (decide (v' = v)) as [->|Hne].
    - rewrite Hget. by rewrite decide_True.
    - destruct (JsMap.get v' (vdis s)); [case_decide|]; try done.
      by rewrite get_set_ne. }
  rewrite vdis_exec. destruct c as [| | | |v' userId|v'| |r| |]; try done.
  - rewrite vdis_unassignVDI. destruct (JsMap.get v' (vdis s)); [|done].
    rewrite get_set_ne; [done|]. by intros ->.
  - by destruct (JsMap.get r (vdiRequests s)).
Qed.

Lemma holder_kept_until_unassigned_witness :
  JsMap.get "VDI01"
    (vdis (snd (run [AssignVDI "VDI01" 2; ApproveVDIRequest 1; RejectVDIRequest 1]
                    held_and_requested)))
  = Some (mkVDI "VDI01" Assigned (Some 1)).
Proof.
  apply (holder_kept_until_unassigned
           [AssignVDI "VDI01" 2; ApproveVDIRequest 1; RejectVDIRequest 1]
           held_and_requested "VDI01" (mkVDI "VDI01" Assigned (Some 1))).
  - repeat constructor; discriminate.
  - reflexivity.
  - reflexivity.
Defined.

(** ** Failed calls *)

Lemma fst_invoke_fmap {A} (f : A -> Value) (c : M A) s e :
  fst (fmap_M f c s) = inl e -> fst (c s) = inl e.
Proof.
  unfold fmap_M, bind, ret. destruct (c s) as [[e'|a] s']; simpl.
  - by intros [= ->].
  - intros [=].
Qed.

Lemma assignVDI_failure v userId s e :
  fst (assignVDI v userId s) = inl e ->
  (e = VDI_not_found \/ e = VDI_already_assigned) /\ snd (assignVDI v userId s) = s.
Proof.
  rewrite assignVDI_eq. destruct (JsMap.get v (vdis s)); [case_decide|]; simpl.
  - intros [= <-]. auto.
  - intros [=].
  - intros [= <-]. auto.
Qed.

(** X4. A call that throws throws one of the three errors of the store,
    a NotFound or a Conflict, and has written nothing, with one exception:
    an [approveVDIRequest] whose assignment failed.  Even that one leaves
    the users, the VDI records and both counters as they were. *)
Theorem failed_call_writes_nothing c s e :
  fst (invoke c s) = inl e ->
  (kind e = Some NotFound \/ kind e = Some Conflict) /\
  ((forall requestId, c <> ApproveVDIRequest requestId) -> exec c s = s) /\
  (e = Request_not_found -> exec c s = s) /\
  users (exec c s) = users s /\ vdis (exec c s) = vdis s /\
  currentId (exec c s) = currentId s /\
  currentRequestId (exec c s) = currentRequestId s.
Proof.
  intros Hfail. rewrite exec_eq.
  destruct c as [| |iu| |v u|v|v u|r|r|]; simpl in Hfail;
    try (apply fst_invoke_fmap in Hfail); try discriminate Hfail.
  - destruct (assignVDI_failure _ _ _ _ Hfail) as [[-> | ->] ->]; split_and!; auto.
  - rewrite unassignVDI_eq in *. destruct (JsMap.get v (vdis s)); [done|].
    injection Hfail as <-. split_and!; auto.
  - destruct (JsMap.get r (vdiRequests s)) as [request|] eqn:Hget.
    + rewrite (approveVDIRequest_found _ _ _ Hget) in *. cbn [fst snd] in *.
      destruct (fst (assignVDI _ _ s)) as [e'|] eqn:Hassign; [|done].
      injection Hfail as <-.
      destruct (assignVDI_failure _ _ _ _ Hassign) as [[-> | ->] ->];
        split_and!; auto; try done; intros Hno; by destruct (Hno r).
    + rewrite (vdis_approve_unknown _ _ Hget) in *. injection Hfail as <-.
      split_and!; auto.
  - rewrite rejectVDIRequest_eq in *. destruct (JsMap.get r (vdiRequests s)); [done|].
    injection Hfail as <-. split_and!; auto.
Qed.

Lemma failed_call_writes_nothing_witness :
  exec (AssignVDI "VDI01" 2) held_and_requested = held_and_requested.
Proof.
  apply (proj1 (proj2 (failed_call_writes_nothing (AssignVDI "VDI01" 2)
                         held_and_requested VDI_already_assigned eq_refl))).
  intros requestId. discriminate.
Defined.

(** ** [unassignVDI] *)

Lemma set_set {K V} `{EqDecision K} (k : K) (v1 v2 : V) (m : JsMap.t K V) :
  JsMap.set k v2 (JsMap.set k v1 m) = JsMap.set k v2 m.
Proof.
  induction m as [|[k' v'] m IH]; simpl.
  - by rewrite decide_True.
  - destruct (decide (k = k')) as [->|Hne]; simpl.
    + by rewrite decide_True.
    + by rewrite decide_False, IH.
Qed.

(** X5. [unassignVDI] fails with NotFound, writing nothing, on an unknown
    id; on a known one it stores and returns the record with status [Free]
    and no holder, whatever the record was, and touches no other record.
    Calling it a second time changes nothing more. *)
Theorem unassignVDI_spec s v :
  (JsMap.get v (vdis s) = None ->
   unassignVDI v s = (inl VDI_not_found, s)) /\
  (forall vdi, JsMap.get v (vdis s) = Some vdi ->
   exists s',
     unassignVDI v s = (inr (mkVDI (vdi_id vdi) Free None), s') /\
     JsMap.get v (vdis s') = Some (mkVDI (vdi_id vdi) Free None) /\
     (forall v', v' <> v -> JsMap.get v' (vdis s') = JsMap.get v' (vdis s)) /\
     users s' = users s /\ vdiRequests s' = vdiRequests s /\
     unassignVDI v s' = (inr (mkVDI (vdi_id vdi) Free None), s')).
Proof.
  rewrite unassignVDI_eq. split.
  - by intros ->.
  - intros vdi ->. eexists. split_and!; try reflexivity; simpl.
    + apply get_set_eq.
    + intros v' Hne. by apply get_set_ne.
    + rewrite unassignVDI_eq. simpl. rewrite get_set_eq. simpl.
      unfold with_vdis. simpl. by rewrite set_set.
Qed.

Lemma unassignVDI_spec_witness :
  exists s',
    unassignVDI "VDI01" held_and_requested = (inr (mkVDI "VDI01" Free None), s') /\
    JsMap.get "VDI01" (vdis s') = Some (mkVDI "VDI01" Free None).
Proof.
  destruct (proj2 (unassignVDI_spec held_and_requested "VDI01")
              (mkVDI "VDI01" Assigned (Some 1))) as (s' & Hrun & Hget & _).
  - reflexivity.
  - exists s'. split; [exact Hrun | exact Hget].
Defined.

(** X6. [unassignVDI] followed by [assignVDI] for user X on a known VDI
    always returns: the VDI ends [Assigned] to X, whoever held it before. *)
Theorem unassign_then_assign s v vdi userId :
  JsMap.get v (vdis s) = Some vdi ->
  exists s',
    assignVDI v userId (snd (unassignVDI v s))
      = (inr (mkVDI (vdi_id vdi) Assigned (Some userId)), s') /\
    JsMap.get v (vdis s') = Some (mkVDI (vdi_id vdi) Assigned (Some userId)).
Proof.
  intros Hget. rewrite unassignVDI_eq, Hget. cbn [snd].
  rewrite assignVDI_eq. simpl. rewrite get_set_eq. simpl.
  eexists. split; [reflexivity|]. simpl. apply get_set_eq.
Qed.

Lemma unassign_then_assign_witness :
  exists s',
    assignVDI "VDI01" 2 (snd (unassignVDI "VDI01" held_and_requested))
      = (inr (mkVDI "VDI01" Assigned (Some 2)), s') /\
    JsMap.get "VDI01" (vdis s') = Some (mkVDI "VDI01" Assigned (Some 2)).
Proof.
  apply (unassign_then_assign held_and_requested "VDI01"
           (mkVDI "VDI01" Assigned (Some 1)) 2).
  reflexivity.
Defined.

(** ** [rejectVDIRequest] *)

(** X7. [rejectVDIRequest] fails with NotFound, writing nothing, on an
    unknown id; on a known one it stores and returns the request as
    [Rejected] with its other fields kept, and leaves every VDI record,
    every user, every other request and both counters as they were. *)
Theorem rejectVDIRequest_spec s requestId :
  (JsMap.get requestId (vdiRequests s) = None ->
   rejectVDIRequest requestId s = (inl Request_not_found, s)) /\
  (forall request, JsMap.get requestId (vdiRequests s) = Some request ->
   exists s',
     rejectVDIRequest requestId s = (inr (with_status request Rejected), s') /\
     JsMap.get requestId (vdiRequests s') = Some (with_status request Rejected) /\
     (forall r, r <> requestId ->
        JsMap.get r (vdiRequests s') = JsMap.get r (vdiRequests s)) /\
     vdis s' = vdis s /\ users s' = users s /\
     currentId s' = currentId s /\ currentRequestId s' = currentRequestId s).
Proof.
  rewrite rejectVDIRequest_eq. split.
  - by intros ->.
  - intros request ->. eexists. split_and!; try reflexivity; simpl.
    + apply get_set_eq.
    + intros r Hne. by apply get_set_ne.
Qed.

Lemma rejectVDIRequest_spec_witness :
  exists s',
    rejectVDIRequest 1 held_and_requested
      = (inr (mkVDIRequest 1 "VDI01" 2 Rejected), s') /\
    vdis s' = vdis held_and_requested.
Proof.
  destruct (proj2 (rejectVDIRequest_spec held_and_requested 1)
              (mkVDIRequest 1 "VDI01" 2 Pending)) as (s' & Hrun & _ & _ & Hvdis & _).
  - reflexivity.
  - exists s'. split; [exact Hrun | exact Hvdis].
Defined.

(** ** Users and ids *)

Lemma users_assignVDI v userId s : users (snd (assignVDI v userId s)) = users s.
Proof.
  rewrite assignVDI_eq. destruct (JsMap.get v (vdis s)); [case_decide|]; reflexivity.
Qed.

Lemma currentId_assignVDI v userId s :
  currentId (snd (assignVDI v userId s)) = currentId s.
Proof.
  rewrite assignVDI_eq. destruct (JsMap.get v (vdis s)); [case_decide|]; reflexivity.
Qed.

Lemma currentRequestId_assignVDI v userId s :
  currentRequestId (snd (assignVDI v userId s)) = currentRequestId s.
Proof.
  rewrite assignVDI_eq. destruct (JsMap.get v (vdis s)); [case_decide|]; reflexivity.
Qed.

(* Only [createUser] writes the users and their counter. *)
Lemma users_exec c s :
  users (exec c s) =
  match c with
  | CreateUser insertUser =>
      JsMap.set (currentId s)
        (mkUser (currentId s) (insert_username insertUser) (insert_password insertUser))
        (users s)
  | _ => users s
  end /\
  currentId (exec c s) =
  match c with
  | CreateUser _ => currentId s + 1
  | _ => currentId s
  end.
Proof.
  rewrite exec_eq. destruct c as [| | | |v u|v|v u|r|r|]; try (split; reflexivity).
  - by rewrite users_assignVDI, currentId_assignVDI.
  - rewrite unassignVDI_eq. by destruct (JsMap.get v (vdis s)).
  - destruct (JsMap.get r (vdiRequests s)) as [request|] eqn:Hget.
    + rewrite (approveVDIRequest_found _ _ _ Hget). cbn [snd]. unfold with_vdiRequests.
      cbn [users currentId]. by rewrite users_assignVDI, currentId_assignVDI.
    + by rewrite (vdis_approve_unknown _ _ Hget).
  - rewrite rejectVDIRequest_eq. by destruct (JsMap.get r (vdiRequests s)).
Qed.

(* Only the three request methods write the requests. *)
Lemma vdiRequests_exec c s :
  vdiRequests (exec c s) =
  match c with
  | CreateVDIRequest v userId =>
      JsMap.set (currentRequestId s)
        (mkVDIRequest (currentRequestId s) v userId Pending) (vdiRequests s)
  | ApproveVDIRequest requestId => vdiRequests (snd (approveVDIRequest requestId s))
  | RejectVDIRequest requestId => vdiRequests (snd (rejectVDIRequest requestId s))
  | _ => vdiRequests s
  end /\
  currentRequestId (exec c s) =
  match c with
  | CreateVDIRequest _ _ => currentRequestId s + 1
  | _ => currentRequestId s
  end.
Proof.
  rewrite exec_eq. destruct c as [| | | |v u|v|v u|r|r|]; try (split; reflexivity).
  - by rewrite vdiRequests_assignVDI, currentRequestId_assignVDI.
  - by rewrite vdiRequests_unassignVDI, unassignVDI_eq; destruct (JsMap.get v (vdis s)).
  - split; [done|]. destruct (JsMap.get r (vdiRequests s)) as [request|] eqn:Hget.
    + rewrite (approveVDIRequest_found _ _ _ Hget). cbn [snd]. unfold with_vdiRequests.
      cbn [currentRequestId]. by rewrite currentRequestId_assignVDI.
    + by rewrite (vdis_approve_unknown _ _ Hget).
  - split; [done|]. rewrite rejectVDIRequest_eq.
    by destruct (JsMap.get r (vdiRequests s)).
Qed.

Lemma keys_requests_status requestId s :
  JsMap.keys (vdiRequests (snd (approveVDIRequest requestId s))) = JsMap.keys (vdiRequests s)
  /\
  JsMap.keys (vdiRequests (snd (rejectVDIRequest requestId s))) = JsMap.keys (vdiRequests s).
Proof.
  rewrite vdiRequests_approve, vdiRequests_reject.
  destruct (JsMap.get requestId (vdiRequests s)) eqn:Hget; [|done].
  split; apply keys_set_present; by rewrite Hget.
Qed.

Lemma seqZ_snoc (n : Z) : 1 <= n -> seqZ 1 (n - 1) ++ [n] = seqZ 1 n.
Proof.
  intros Hn. replace n with ((n - 1) + 1) at 3 by lia.
  rewrite seqZ_app by lia. f_equal.
  replace (1 + (n - 1)) with n by lia. by rewrite seqZ_cons, seqZ_nil by lia.
Qed.

(* The ids in use are exactly those below the counters, in order. *)
Lemma ids_dense s :
  reachable s ->
  1 <= currentId s /\ 1 <= currentRequestId s /\
  JsMap.keys (users s) = seqZ 1 (currentId s - 1) /\
  JsMap.keys (vdiRequests s) = seqZ 1 (currentRequestId s - 1).
Proof.
  induction 1 as [|c s Hs (Hu1 & Hr1 & Hu & Hr)]; [by vm_compute|].
  pose proof (reachable_wf _ Hs) as [_ Hwr _ Hwu _].
  destruct (users_exec c s) as [Husers Hcur].
  destruct (vdiRequests_exec c s) as [Hreqs Hcurr].
  rewrite Husers, Hcur, Hreqs, Hcurr.
  destruct c as [| |iu| |v u|v|v u|r|r|]; split_and!; try done; try lia.
  - rewrite (set_absent _ _ _ (keys_lt_get_None _ user_id _ Hwu)).
    unfold JsMap.keys in *. rewrite map_app, Hu. simpl.
    replace (currentId s + 1 - 1) with (currentId s) by lia. by apply seqZ_snoc.
  - rewrite (set_absent _ _ _ (keys_lt_get_None _ request_id _ Hwr)).
    unfold JsMap.keys in *. rewrite map_app, Hr. simpl.
    replace (currentRequestId s + 1 - 1) with (currentRequestId s) by lia.
    by apply seqZ_snoc.
  - by rewrite (proj1 (keys_requests_status r s)).
  - by rewrite (proj2 (keys_requests_status r s)).
Qed.

Lemma is_Some_get_keys {K V} `{EqDecision K} (k : K) (m : JsMap.t K V) :
  is_Some (JsMap.get k m) <-> k ∈ JsMap.keys m.
Proof.
  rewrite <- not_eq_None_Some, get_None_keys.
  split; [apply dec_stable | auto].
Qed.

(** X8. In every reachable store [getVDIRequests] lists the whole history
    in creation order: the requests with ids 1, 2, ... up to the last id
    handed out, none missing, whatever was approved or rejected. *)
Theorem getVDIRequests_history s :
  reachable s ->
  exists l, getVDIRequests s = (inr l, s) /\
            map request_id l = seqZ 1 (currentRequestId s - 1).
Proof.
  intros Hs. eexists. split; [reflexivity|].
  destruct (ids_dense s Hs) as (_ & _ & _ & Hr).
  by rewrite (request_ids_are_keys _ _ (wf_requests _ (reachable_wf _ Hs))).
Qed.

Lemma getVDIRequests_history_witness :
  exists l, getVDIRequests two_requests = (inr l, two_requests) /\
            map request_id l = [1; 2].
Proof.
  apply (getVDIRequests_history two_requests). unfold two_requests, seeded. reachable_now.
Defined.

(** X9. In every reachable store [getUser] finds a user exactly for the ids
    handed out so far, 1 up to the counter, and the user found carries the
    id asked for. *)
Theorem getUser_domain s id :
  reachable s ->
  exists found, getUser id s = (inr found, s) /\
    (is_Some found <-> 1 <= id < currentId s) /\
    (forall user, found = Some user -> user_id user = id).
Proof.
  intros Hs. eexists. split; [reflexivity|]. split.
  - destruct (ids_dense s Hs) as (_ & _ & Hu & _).
    rewrite is_Some_get_keys, Hu, elem_of_seqZ. lia.
  - intros user Hget. by eapply stored_user_id.
Qed.

Lemma getUser_domain_witness :
  exists found, getUser 3 seeded = (inr found, seeded) /\
    (is_Some found <-> 1 <= 3 < currentId seeded) /\
    (forall user, found = Some user -> user_id user = 3).
Proof. apply (getUser_domain seeded 3). unfold seeded. reachable_now. Defined.

(** X10. A stored user is never changed and never removed: through any
    sequence of calls on a reachable store, [getUser] keeps returning the
    same record for its id. *)
Theorem user_records_immutable cs s id user :
  reachable s ->
  JsMap.get id (users s) = Some user ->
  getUser id (snd (run cs s)) = (inr (Some user), snd (run cs s)).
Proof.
  intros Hs Hget. unfold getUser, gets. f_equal. f_equal.
  revert s Hs Hget. induction cs as [|c cs IH]; intros s Hs Hget; [done|].
  rewrite snd_run_cons. apply IH; [by apply reachable_exec|].
  rewrite (proj1 (users_exec c s)). destruct c; try done.
  rewrite get_set_ne; [done|]. intros <-.
  pose proof (reachable_wf _ Hs) as [_ _ _ Hwu _].
  rewrite (keys_lt_get_None _ user_id _ Hwu) in Hget. done.
Qed.

Lemma user_records_immutable_witness :
  getUser 1 (snd (run [CreateUser madhav; AssignVDI "VDI01" 1] seeded))
  = (inr (Some (mkUser 1 "madhav" "hash-of-madhav123")),
     snd (run [CreateUser madhav; AssignVDI "VDI01" 1] seeded)).
Proof.
  apply (user_records_immutable [CreateUser madhav; AssignVDI "VDI01" 1] seeded 1).
  - unfold seeded. reachable_now.
  - reflexivity.
Defined.

Lemma find_snoc {A} (f : A -> bool) (l : list A) (x : A) :
  find f (l ++ [x]) =
  match find f l with
  | Some y => Some y
  | None => if f x then Some x else None
  end.
Proof.
  induction l as [|a l IH]; simpl; [done|]. by destruct (f a).
Qed.

Lemma find_result {A} (f : A -> bool) (l : list A) :
  (find f l = None <-> forall x, x ∈ l -> f x = false) /\
  (forall y, find f l = Some y -> y ∈ l /\ f y = true).
Proof.
  induction l as [|a l [IHn IHs]]; simpl.
  - split; [split; [intros _ x Hx; by apply elem_of_nil in Hx | done] | done].
  - destruct (f a) eqn:Ha.
    + split.
      * split; [done|]. intros Hall. rewrite (Hall a) in Ha; [done | left].
      * intros y [= <-]. split; [left | done].
    + split.
      * rewrite IHn. split.
        -- intros Hall x Hx. apply elem_of_cons in Hx as [->|Hx]; auto.
        -- intros Hall x Hx. apply Hall. by right.
      * intros y Hy. destruct (IHs y Hy). split; [by right | done].
Qed.

(** X11. [getUserByUsername] returns nothing exactly when no stored user
    has the username, and a user it returns is stored and has it. *)
Theorem getUserByUsername_spec s name :
  exists found, getUserByUsername name s = (inr found, s) /\
    (found = None <->
     forall user, user ∈ JsMap.values (users s) -> username user <> name) /\
    (forall user, found = Some user ->
       user ∈ JsMap.values (users s) /\ username user = name).
Proof.
  eexists. split; [reflexivity|].
  destruct (find_result (fun user => bool_decide (username user = name))
              (JsMap.values (users s))) as [Hnone Hsome].
  split.
  - rewrite Hnone. split; intros Hall user Hin; specialize (Hall user Hin).
    + by apply bool_decide_eq_false_1 in Hall.
    + by apply bool_decide_eq_false_2.
  - intros user Hfind. destruct (Hsome user Hfind) as [Hin Hname].
    split; [done|]. by apply bool_decide_eq_true_1 in Hname.
Qed.

(** X12. [createUser] on a reachable store takes an id that no user had,
    and [getUser] of that id then returns the created user.  A lookup by
    username afterwards returns what it returned before if that was a
    user, and the created user if there was none and the name is the
    created one: a name that was free leads to the new user, a name that
    was taken still leads to its first owner. *)
Theorem createUser_then_lookup s insertUser name :
  reachable s ->
  exists user s' before,
    createUser insertUser s = (inr user, s') /\
    getUser (user_id user) s = (inr None, s) /\
    getUser (user_id user) s' = (inr (Some user), s') /\
    getUserByUsername name s = (inr before, s) /\
    getUserByUsername name s' =
      (inr (match before with
            | Some first => Some first
            | None =>
                if decide (insert_username insertUser = name) then Some user else None
            end), s').
Proof.
  intros Hs. destruct (createUser_appends insertUser s Hs) as [Happ _].
  pose proof (reachable_wf _ Hs) as [_ _ _ Hwu _].
  rewrite createUser_eq in *. cbn [snd users] in Happ. cbv zeta.
  eexists _, _, _. split_and!; try reflexivity.
  - unfold getUser, gets. cbn [user_id]. by rewrite (keys_lt_get_None _ user_id _ Hwu).
  - unfold getUser, gets. cbn [user_id users]. by rewrite get_set_eq.
  - unfold getUserByUsername, gets. cbn [users]. f_equal. f_equal.
    rewrite Happ. unfold JsMap.values. rewrite map_app. cbn [map snd].
    rewrite find_snoc. destruct (find _ _); [done|]. cbn [username].
    destruct (decide (insert_username insertUser = name)) as [Heq|Hne].
    + by rewrite bool_decide_eq_true_2.
    + by rewrite bool_decide_eq_false_2.
Qed.

Lemma createUser_then_lookup_witness :
  exists user s' before,
    createUser (mkInsertUser "asha" "h") seeded = (inr user, s') /\
    getUser (user_id user) seeded = (inr None, seeded) /\
    getUser (user_id user) s' = (inr (Some user), s') /\
    getUserByUsername "asha" seeded = (inr before, seeded) /\
    getUserByUsername "asha" s' =
      (inr (match before with
            | Some first => Some first
            | None => if decide ("asha" = "asha") then Some user else None
            end), s').
Proof.
  apply (createUser_then_lookup seeded (mkInsertUser "asha" "h") "asha").
  unfold seeded. reachable_now.
Defined.

(** ** The socket registry *)

Section JsMapDelete.
Context {K V : Type} `{EqDecision K}.
Implicit Types (k : K) (v : V) (m : JsMap.t K V).

Lemma keys_set k v m :
  JsMap.keys (JsMap.set k v m) =
  if JsMap.has k m then JsMap.keys m else JsMap.keys m ++ [k].
Proof.
  unfold JsMap.has. destruct (JsMap.get k m) eqn:Hget.
  - apply keys_set_present. by rewrite Hget.
  - rewrite (set_absent _ _ _ Hget). unfold JsMap.keys. by rewrite map_app.
Qed.

Lemma NoDup_keys_set k v m : NoDup (JsMap.keys m) -> NoDup (JsMap.keys (JsMap.set k v m)).
Proof.
  intros Hm. rewrite keys_set. unfold JsMap.has.
  destruct (JsMap.get k m) eqn:Hget; [done|].
  apply NoDup_app. split_and!; [done| |apply NoDup_singleton].
  intros k' Hin Hk. apply list_elem_of_singleton in Hk as ->.
  by apply get_None_keys in Hget.
Qed.

Lemma set_get_id k v m : JsMap.get k m = Some v -> JsMap.set k v m = m.
Proof.
  induction m as [|[k' v'] m IH]; simpl; [done|].
  case_decide; [by intros [= ->] | intros Hm; by rewrite IH].
Qed.

Lemma get_delete_ne k k' m : k <> k' -> JsMap.get k' (JsMap.delete k m) = JsMap.get k' m.
Proof.
  intros Hne. induction m as [|[k0 v0] m IH]; simpl; [done|].
  destruct (decide (k = k0)) as [->|Hk]; simpl.
  - by rewrite decide_False by done.
  - by rewrite IH.
Qed.

Lemma get_delete_eq k m : NoDup (JsMap.keys m) -> JsMap.get k (JsMap.delete k m) = None.
Proof.
  induction m as [|[k0 v0] m IH]; simpl; [done|]. intros Hnd.
  apply NoDup_cons in Hnd as [Hk0 Hnd].
  destruct (decide (k = k0)) as [->|Hk]; simpl.
  - by apply get_None_keys.
  - rewrite decide_False by done. by apply IH.
Qed.

Lemma delete_sublist k m : JsMap.delete k m `sublist_of` m.
Proof.
  induction m as [|[k0 v0] m IH]; simpl; [done|].
  case_decide; [by apply sublist_cons | by apply sublist_skip].
Qed.

Lemma delete_snoc k v m : k ∉ JsMap.keys m -> JsMap.delete k (m ++ [(k, v)]) = m.
Proof.
  induction m as [|[k0 v0] m IH]; simpl.
  - intros _. by rewrite decide_True.
  - rewrite not_elem_of_cons. intros [Hne Hm]. rewrite decide_False by done.
    by rewrite IH.
Qed.

End JsMapDelete.

Lemma Set_delete_other ws sockets :
  socket ws ∉ map socket sockets -> Set_delete ws sockets = sockets.
Proof.
  intros Hnot. unfold Set_delete. induction sockets as [|c l IH]; [done|].
  simpl in Hnot. apply not_elem_of_cons in Hnot as [Hne Hl].
  rewrite filter_cons_True by done. by rewrite IH.
Qed.

Lemma Set_delete_add ws sockets :
  socket ws ∉ map socket sockets -> Set_delete ws (Set_add ws sockets) = sockets.
Proof.
  intros Hnot. unfold Set_add, Set_has. rewrite bool_decide_eq_false_2 by done.
  unfold Set_delete. rewrite filter_app, filter_cons_False, filter_nil by naive_solver.
  rewrite app_nil_r. by apply Set_delete_other.
Qed.

Lemma Set_add_ok ws sockets :
  NoDup (map socket sockets) ->
  Set_add ws sockets <> [] /\ NoDup (map socket (Set_add ws sockets)) /\
  socket ws ∈ map socket (Set_add ws sockets).
Proof.
  intros Hnd. unfold Set_add, Set_has. case_bool_decide as Hin.
  - split_and!; [|done|done]. intros ->. by apply elem_of_nil in Hin.
  - split_and!.
    + by destruct sockets.
    + rewrite map_app. apply NoDup_app. split_and!; [done| |apply NoDup_singleton].
      intros x Hx Hx'. apply list_elem_of_singleton in Hx' as ->. done.
    + rewrite map_app. apply elem_of_app. right. by left.
Qed.

Lemma Set_delete_ok ws sockets :
  NoDup (map socket sockets) ->
  NoDup (map socket (Set_delete ws sockets)) /\
  socket ws ∉ map socket (Set_delete ws sockets).
Proof.
  intros Hnd. unfold Set_delete. split.
  - eapply sublist_NoDup; [exact Hnd|]. apply (fmap_sublist socket), sublist_filter.
  - rewrite list_elem_of_fmap. intros [c [Heq Hin]].
    apply list_elem_of_filter in Hin as [Hne _]. by rewrite Heq in Hne.
Qed.

(* [register] as one write. *)
Lemma register_eq userId ws conns :
  register userId ws conns =
  JsMap.set userId (Set_add ws (default [] (JsMap.get userId conns))) conns.
Proof.
  unfold register, JsMap.has. destruct (JsMap.get userId conns) as [l|] eqn:Hget.
  - by rewrite Hget.
  - rewrite get_set_eq. simpl. by rewrite set_set.
Qed.

Lemma registry_ok_register userId ws conns :
  registry_ok conns -> registry_ok (register userId ws conns).
Proof.
  intros [Hkeys Hall]. rewrite register_eq. split; [by apply NoDup_keys_set|].
  apply Forall_set; [|done]. intros k. unfold registry_entry_ok. cbn [snd].
  assert (Hnd : NoDup (map socket (default [] (JsMap.get userId conns)))).
  { destruct (JsMap.get userId conns) as [l|] eqn:Hget; [|constructor].
    apply get_Some_elem in Hget. rewrite Forall_forall in Hall.
    by destruct (Hall _ Hget). }
  by destruct (Set_add_ok ws _ Hnd) as (? & ? & _).
Qed.

Lemma registry_ok_unregister userId ws conns :
  registry_ok conns -> registry_ok (unregister userId ws conns).
Proof.
  intros [Hkeys Hall]. unfold unregister.
  destruct (JsMap.get userId conns) as [l|] eqn:Hget; [|by rewrite Hget].
  rewrite get_set_eq.
  assert (Hl : NoDup (map socket l)).
  { apply get_Some_elem in Hget. rewrite Forall_forall in Hall.
    by destruct (Hall _ Hget). }
  set (conns' := JsMap.set userId (Set_delete ws l) conns).
  assert (Hkeys' : NoDup (JsMap.keys conns')) by by apply NoDup_keys_set.
  case_decide as Hempty.
  - apply nil_length_inv in Hempty. split.
    + eapply sublist_NoDup; [exact Hkeys'|]. apply (fmap_sublist fst), delete_sublist.
    + assert (Hrest : Forall registry_entry_ok (JsMap.delete userId conns')).
      { apply Forall_forall. intros [k l'] Hin.
        assert (Hne : k <> userId).
        { intros ->. pose proof (get_delete_eq userId conns' Hkeys') as Hnone.
          apply get_None_keys in Hnone. apply Hnone.
          unfold JsMap.keys. apply list_elem_of_fmap. by exists (userId, l'). }
        assert (Hin' : (k, l') ∈ conns').
        { eapply elem_of_sublist; [exact Hin | apply delete_sublist]. }
        assert (Hget' : JsMap.get k conns = Some l').
        { rewrite <- (get_set_ne userId k (Set_delete ws l) conns) by done.
          fold conns'. clear -Hin' Hkeys'.
          induction conns' as [|[k0 l0] m IH]; [by apply elem_of_nil in Hin'|].
          simpl in *. apply NoDup_cons in Hkeys' as [Hk0 Hm].
          apply elem_of_cons in Hin' as [[= <- <-]|Hin'].
          - by rewrite decide_True.
          - rewrite decide_False; [by apply IH|]. intros ->. apply Hk0.
            apply list_elem_of_fmap. by exists (k0, l'). }
        apply get_Some_elem in Hget'. rewrite Forall_forall in Hall. by apply Hall. }
      exact Hrest.
  - split; [done|]. apply Forall_set; [|done]. intros k. split; cbn [snd].
    + intros Hnil. apply Hempty. by rewrite Hnil.
    + by destruct (Set_delete_ok ws l Hl).
Qed.

Lemma registry_is_ok conns : registry conns -> registry_ok conns.
Proof.
  induction 1 as [|ev conns Hreg IH]; [split; constructor|].
  destruct ev; [by apply registry_ok_register | by apply registry_ok_unregister].
Qed.

(** X13. Whatever sockets are registered and closed, in whatever order,
    the registry has one entry per user, never an entry with an empty set,
    and never the same socket twice in a user's set. *)
Theorem registry_no_empty_entries conns :
  registry conns ->
  NoDup (JsMap.keys conns) /\
  (forall userId sockets, JsMap.get userId conns = Some sockets ->
     sockets <> [] /\ NoDup (map socket sockets)).
Proof.
  intros Hreg.
  pose proof (registry_is_ok conns Hreg) as Hok.
  destruct Hok as [Hkeys Hall]. split; [done|].
  intros userId l Hget. apply get_Some_elem in Hget.
  rewrite Forall_forall in Hall. by apply (Hall _ Hget).
Qed.

Lemma registry_no_empty_entries_witness :
  NoDup (JsMap.keys (handleSocketEvent (Closed 1 (mkWebSocket 10 OPEN))
                       (handleSocketEvent (Registered 1 (mkWebSocket 10 OPEN))
                          JsMap.empty))).
Proof.
  apply (registry_no_empty_entries
           (handleSocketEvent (Closed 1 (mkWebSocket 10 OPEN))
              (handleSocketEvent (Registered 1 (mkWebSocket 10 OPEN)) JsMap.empty))).
  repeat apply registry_event. apply registry_empty.
Defined.

(** X14. Registering a socket puts it into the set of that user, keeps the
    sockets the user had, in order, and leaves every other user's set as it
    was; registering the same socket again changes nothing. *)
Theorem register_spec userId ws conns :
  (exists sockets,
     JsMap.get userId (register userId ws conns) = Some sockets /\
     socket ws ∈ map socket sockets /\
     default [] (JsMap.get userId conns) `prefix_of` sockets) /\
  (forall other, other <> userId ->
     JsMap.get other (register userId ws conns) = JsMap.get other conns) /\
  register userId ws (register userId ws conns) = register userId ws conns.
Proof.
  rewrite !register_eq, get_set_eq. cbn [default]. rewrite set_set. split_and!.
  - eexists. split; [reflexivity|]. unfold Set_add, Set_has.
    case_bool_decide as Hin; split.
    + exact Hin.
    + reflexivity.
    + apply list_elem_of_fmap. exists ws. split; [done|].
      apply elem_of_app. right. by left.
    + by apply prefix_app_r.
  - intros other Hne. by apply get_set_ne.
  - f_equal. unfold Set_add at 1, Set_has.
    rewrite bool_decide_eq_true_2; [done|].
    unfold Set_add, Set_has. case_bool_decide as Hin; [done|].
    apply list_elem_of_fmap. exists ws. split; [done|].
    apply elem_of_app. right. by left.
Qed.

(** X15. In a registry built from socket events, closing a socket that was
    registered for a user removes it from that user's set and keeps the
    user's other sockets and every other user's set; when it was the
    user's only socket the user's entry is gone altogether. *)
Theorem unregister_spec userId ws conns :
  registry conns ->
  (forall client,
     client ∈ default [] (JsMap.get userId (unregister userId ws conns)) <->
     client ∈ default [] (JsMap.get userId conns) /\ socket client <> socket ws) /\
  (forall other, other <> userId ->
     JsMap.get other (unregister userId ws conns) = JsMap.get other conns) /\
  (JsMap.get userId (unregister userId ws conns) <> Some []).
Proof.
  intros Hreg.
  pose proof (registry_is_ok conns Hreg) as Hok.
  destruct (registry_ok_unregister userId ws conns Hok) as [_ Hall'].
  destruct Hok as [Hkeys Hall]. split_and!.
  - intros client. unfold unregister.
    destruct (JsMap.get userId conns) as [l|] eqn:Hget.
    + rewrite get_set_eq. case_decide as Hempty.
      * rewrite get_delete_eq by by apply NoDup_keys_set.
        apply nil_length_inv in Hempty. cbn [default]. unfold id. split.
        -- by intros ?%elem_of_nil.
        -- intros [Hin Hne]. rewrite <- Hempty. unfold Set_delete.
           by apply list_elem_of_filter.
      * rewrite get_set_eq. cbn [default]. unfold id.
        unfold Set_delete. rewrite list_elem_of_filter. tauto.
    + rewrite Hget. cbn beta iota. rewrite Hget. cbn [default]. unfold id.
      split; [by intros ?%elem_of_nil | by intros [?%elem_of_nil _]].
  - intros other Hne. unfold unregister.
    destruct (JsMap.get userId conns) as [l|] eqn:Hget; [|by rewrite Hget].
    rewrite get_set_eq. case_decide.
    + rewrite get_delete_ne by done. by apply get_set_ne.
    + by apply get_set_ne.
  - intros Hget. apply get_Some_elem in Hget. rewrite Forall_forall in Hall'.
    by destruct (Hall' _ Hget) as [Hne _].
Qed.

Lemma unregister_spec_witness :
  JsMap.get 1 (unregister 1 (mkWebSocket 10 OPEN)
                 (register 1 (mkWebSocket 10 OPEN) JsMap.empty)) <> Some [].
Proof.
  apply (unregister_spec 1 (mkWebSocket 10 OPEN)
           (handleSocketEvent (Registered 1 (mkWebSocket 10 OPEN)) JsMap.empty)).
  apply registry_event, registry_empty.
Defined.

(** X16. Registering a socket that the user did not have and then closing
    it gives back the registry as it was, entry order included. *)
Theorem register_then_close userId ws conns :
  registry conns ->
  socket ws ∉ map socket (default [] (JsMap.get userId conns)) ->
  unregister userId ws (register userId ws conns) = conns.
Proof.
  intros Hreg Hnew.
  pose proof (registry_is_ok conns Hreg) as Hok.
  destruct Hok as [Hkeys Hall].
  rewrite register_eq. unfold unregister. rewrite get_set_eq, set_set, get_set_eq.
  rewrite (Set_delete_add _ _ Hnew).
  destruct (JsMap.get userId conns) as [l|] eqn:Hget; cbn [default].
  - rewrite decide_False.
    + by apply set_get_id.
    + apply get_Some_elem in Hget. rewrite Forall_forall in Hall.
      destruct (Hall _ Hget) as [Hne _]. cbn [snd] in Hne. by destruct l.
  - rewrite decide_True by done. rewrite (set_absent _ _ _ Hget).
    apply delete_snoc. by apply get_None_keys.
Qed.

Lemma register_then_close_witness :
  unregister 2 (mkWebSocket 21 OPEN) (register 2 (mkWebSocket 21 OPEN) JsMap.empty)
  = JsMap.empty.
Proof.
  apply (register_then_close 2 (mkWebSocket 21 OPEN) JsMap.empty).
  - apply registry_empty.
  - cbn. apply not_elem_of_nil.
Defined.

(** X17. A new connection is registered only under the user of its own
    session: if the registry entry of a user changes, the request carried a
    non-empty cookie header whose [vdi.sid] cookie is a non-empty id of a
    stored session with exactly that user, not 0, as [passport.user].  With
    no such session the registry is left as it was. *)
Theorem connection_registers_session_user
    (parseCookie : string -> JsMap.t string string)
    (sessionStore_get : string -> option SessionData)
    (cookieHeader : option string) (ws : WebSocket) (conns : UserConnections) :
  (forall userId,
     JsMap.get userId (connection parseCookie sessionStore_get cookieHeader ws conns)
       <> JsMap.get userId conns ->
     exists header sessionID sessionData,
       cookieHeader = Some header /\ header <> "" /\
       JsMap.get "vdi.sid" (parseCookie header) = Some sessionID /\ sessionID <> "" /\
       sessionStore_get sessionID = Some sessionData /\
       passport sessionData ≫= passport_user = Some userId /\ userId <> 0) /\
  (sessionUser parseCookie sessionStore_get cookieHeader = None ->
   connection parseCookie sessionStore_get cookieHeader ws conns = conns).
Proof.
  split.
  - intros userId Hchanged. unfold connection, sessionUser in Hchanged.
    destruct cookieHeader as [header|]; [|done].
    destruct (decide (header = "")) as [|Hheader]; [done|].
    destruct (JsMap.get "vdi.sid" (parseCookie header)) as [sessionID|] eqn:Hsid; [|done].
    destruct (decide (sessionID = "")) as [|HsessionID]; [done|].
    destruct (sessionStore_get sessionID) as [sessionData|] eqn:Hsession; [|done].
    cbv zeta in Hchanged.
    destruct (passport sessionData ≫= passport_user) as [u|] eqn:Huser; [|done].
    cbn [truthy] in Hchanged. destruct (Z.eqb_spec u 0) as [|Hnz]; [done|].
    cbn [negb] in Hchanged.
    destruct (decide (u = userId)) as [->|Hne].
    + by exists header, sessionID, sessionData.
    + exfalso. apply Hchanged. rewrite register_eq. by apply get_set_ne.
  - unfold connection. by intros ->.
Qed.

Lemma connection_registers_session_user_witness :
  connection (fun _ => [("vdi.sid", "abc")])
             (fun _ => Some (mkSessionData None))
             (Some "vdi.sid=abc") (mkWebSocket 10 OPEN) sockets = sockets.
Proof.
  apply (connection_registers_session_user (fun _ => [("vdi.sid", "abc")])
           (fun _ => Some (mkSessionData None))).
  reflexivity.
Defined.

(** ** The snapshot broadcast *)

(* A VDI of a reachable store is [Assigned] exactly when it has a holder. *)
Lemma vdi_assigned_iff_holder_aux s vdi :
  reachable s -> vdi ∈ JsMap.values (vdis s) -> vdi_consistent vdi.
Proof.
  intros Hs Hin. apply reachable_wf in Hs. destruct Hs as [Hv _ _ _ _].
  apply elem_values_get in Hin as [k Hin].
  rewrite Forall_forall in Hv. by destruct (Hv _ Hin) as [_ Hc].
Qed.


Lemma stored_user_positive id user s :
  reachable s -> JsMap.get id (users s) = Some user -> 1 <= id.
Proof.
  intros Hs Hget. destruct (ids_dense s Hs) as (_ & _ & Hu & _).
  assert (Hin : id ∈ JsMap.keys (users s)).
  { apply is_Some_get_keys. by rewrite Hget. }
  rewrite Hu, elem_of_seqZ in Hin. lia.
Qed.

(* In a reachable store the name attached to a VDI is the holder's, if the
   holder is a stored user. *)
Lemma withUserInfo_reachable s vdi :
  reachable s ->
  withUserInfo s vdi =
  mkVDIWithUserInfo vdi
    (assignedUserId vdi ≫= fun id => username <$> JsMap.get id (users s)).
Proof.
  intros Hs. unfold withUserInfo. destruct (assignedUserId vdi) as [h|]; [|done].
  cbn [truthy]. destruct (Z.eqb_spec h 0) as [->|Hnz]; [|done].
  cbn. destruct (JsMap.get 0 (users s)) as [u|] eqn:Hget; [|done].
  pose proof (stored_user_positive _ _ _ Hs Hget). lia.
Qed.

Lemma value_of_get {K V} `{EqDecision K} (k : K) (v : V) (m : JsMap.t K V) :
  JsMap.get k m = Some v -> v ∈ JsMap.values m.
Proof.
  intros Hget. apply get_Some_elem in Hget.
  unfold JsMap.values. apply list_elem_of_fmap. by exists (k, v).
Qed.

(** X18. On a reachable store the broadcast sends one and the same
    [vdi_update] to every socket of the server that is open, in order, and
    nothing to the others.  Its data lists every VDI of the ledger in pool
    order; an entry carries the username of the VDI's holder when the
    holder is a stored user and no username otherwise, so never for a free
    VDI. *)
Theorem broadcastVDIUpdate_spec clients s :
  reachable s ->
  exists data,
    broadcastVDIUpdate clients s =
      map (fun client => (client, vdi_update data))
          (filter (fun client => readyState client = OPEN) clients) /\
    map info_vdi data = JsMap.values (vdis s) /\
    Forall (fun entry =>
              assignedUsername entry =
                (assignedUserId (info_vdi entry) ≫= fun id =>
                   username <$> JsMap.get id (users s)) /\
              (vdi_status (info_vdi entry) = Free -> assignedUsername entry = None))
           data.
Proof.
  intros Hs. eexists. split; [reflexivity|]. split.
  - rewrite map_map. erewrite map_ext; [apply map_id|].
    intros vdi. by rewrite (withUserInfo_reachable _ _ Hs).
  - apply Forall_forall. intros entry Hin.
    apply list_elem_of_fmap in Hin as [vdi [-> Hin]].
    rewrite (withUserInfo_reachable _ _ Hs). cbn [assignedUsername info_vdi].
    split; [done|]. intros Hfree.
    destruct (vdi_assigned_iff_holder_aux s vdi Hs Hin) as [_ Hholder].
    destruct (assignedUserId vdi); [|done].
    rewrite Hholder in Hfree; done.
Qed.

Lemma broadcastVDIUpdate_spec_witness :
  exists data,
    broadcastVDIUpdate all_clients held_and_requested =
      map (fun client => (client, vdi_update data))
          (filter (fun client => readyState client = OPEN) all_clients) /\
    map info_vdi data = JsMap.values (vdis held_and_requested) /\
    Forall (fun entry =>
              assignedUsername entry =
                (assignedUserId (info_vdi entry) ≫= fun id =>
                   username <$> JsMap.get id (users held_and_requested)) /\
              (vdi_status (info_vdi entry) = Free -> assignedUsername entry = None))
           data.
Proof.
  apply (broadcastVDIUpdate_spec all_clients held_and_requested).
  unfold held_and_requested, seeded. reachable_now.
Defined.

Example broadcast_after_assign :
  broadcastVDIUpdate [mkWebSocket 11 CLOSED; mkWebSocket 20 OPEN]
                     (exec (AssignVDI "VDI01" 1) seeded)
  = [(mkWebSocket 20 OPEN,
      vdi_update
        (mkVDIWithUserInfo (mkVDI "VDI01" Assigned (Some 1)) (Some "madhav")
         :: map (fun v => mkVDIWithUserInfo (mkVDI v Free None) None)
                ["VDI02"; "VDI03"; "VDI04"; "VDI05"; "VDI06"; "VDI07"; "VDI08"; "VDI09"]))].
Proof. vm_compute. reflexivity. Qed.

(** ** The routes *)

(* The pool of a reachable store: nine VDIs under the ids of the constructor. *)
Lemma vdi_pool_keys s :
  reachable s ->
  JsMap.keys (vdis s) = JsMap.keys (vdis constructor) /\ length (vdis s) = 9%nat.
Proof.
  intros Hs.
  assert (Hkeys : JsMap.keys (vdis s) = JsMap.keys (vdis constructor)).
  { induction Hs as [|c s Hs IH]; [done|]. by rewrite keys_vdis_exec. }
  split; [done|]. apply (f_equal length) in Hkeys.
  unfold JsMap.keys in Hkeys. rewrite !length_map in Hkeys. by rewrite Hkeys.
Qed.


(** X19. What [GET /api/vdis] answers to an authenticated request is the
    data of the [vdi_update] that a broadcast on the same store sends: the
    two copies of the enrichment agree. *)
Theorem getVdisRoute_is_broadcast_data clients user s client message :
  (client, message) ∈ broadcastVDIUpdate clients s ->
  exists data, message = vdi_update data /\ getVdisRoute (Some user) s = json200 data.
Proof.
  unfold broadcastVDIUpdate. intros Hin.
  apply list_elem_of_fmap in Hin as [c [[= -> ->] _]].
  eexists. split; reflexivity.
Qed.

Lemma getVdisRoute_is_broadcast_data_witness :
  exists data,
    vdi_update (map (withUserInfo seeded) (JsMap.values (vdis seeded))) = vdi_update data /\
    getVdisRoute (Some (mkUser 1 "madhav" "hash-of-madhav123")) seeded = json200 data.
Proof.
  apply (getVdisRoute_is_broadcast_data all_clients
           (mkUser 1 "madhav" "hash-of-madhav123") seeded (mkWebSocket 10 OPEN)).
  apply list_elem_of_In. vm_compute. left. reflexivity.
Defined.

Lemma assignRoute_eq clients user id s :
  assignRoute clients (Some user) id s =
  match JsMap.get id (vdis s) with
  | None => mkHandled (json400 "VDI not found") s [] []
  | Some vdi =>
      if decide (vdi_status vdi = Assigned)
      then mkHandled (json400 "VDI already assigned") s [] []
      else
        let updated := mkVDI (vdi_id vdi) Assigned (Some (user_id user)) in
        let s' := with_vdis (JsMap.set id updated) s in
        mkHandled (json200 updated) s' [] (broadcastVDIUpdate clients s')
  end.
Proof.
  unfold assignRoute. rewrite assignVDI_eq.
  destruct (JsMap.get id (vdis s)); [case_decide|]; reflexivity.
Qed.

(** X20. [POST /api/vdis/:id/assign] by a stored user on a free VDI of a
    reachable store answers 200 with the VDI assigned to that user, stores
    it, and pushes to every open socket of the server, and to no other, a
    snapshot in which this VDI appears with the user's id and username. *)
Theorem assignRoute_success clients user id vdi s :
  reachable s ->
  JsMap.get (user_id user) (users s) = Some user ->
  JsMap.get id (vdis s) = Some vdi ->
  vdi_status vdi = Free ->
  let updated := mkVDI id Assigned (Some (user_id user)) in
  let handled := assignRoute clients (Some user) id s in
  response handled = json200 updated /\
  JsMap.get id (vdis (store handled)) = Some updated /\
  notified handled = [] /\
  exists data,
    broadcasted handled =
      map (fun client => (client, vdi_update data))
          (filter (fun client => readyState client = OPEN) clients) /\
    mkVDIWithUserInfo updated (Some (username user)) ∈ data /\
    length data = 9%nat.
Proof.
  intros Hs Huser Hvdi Hfree updated handled. subst handled.
  assert (Hid : vdi_id vdi = id).
  { pose proof (reachable_wf _ Hs) as [Hv _ _ _ _]. apply get_Some_elem in Hvdi.
    rewrite Forall_forall in Hv. by destruct (Hv _ Hvdi). }
  rewrite assignRoute_eq, Hvdi, decide_False by (rewrite Hfree; discriminate).
  cbv zeta. rewrite Hid. fold updated. cbn [response store notified broadcasted].
  set (s' := with_vdis (JsMap.set id updated) s).
  assert (Hs' : reachable s').
  { replace s' with (exec (AssignVDI id (user_id user)) s); [by apply reachable_exec|].
    rewrite exec_eq, assignVDI_eq, Hvdi, decide_False by (rewrite Hfree; discriminate).
    cbv zeta. by rewrite Hid. }
  split_and!; try done.
  - apply get_set_eq.
  - eexists. split; [reflexivity|]. split.
    + apply list_elem_of_fmap. exists updated. split.
      * unfold withUserInfo. cbn [assignedUserId updated truthy].
        pose proof (stored_user_positive _ _ _ Hs Huser) as Hpos.
        destruct (Z.eqb_spec (user_id user) 0) as [Hz|_]; [lia|].
        cbn [negb]. cbn. change (users s') with (users s). by rewrite Huser.
      * apply (value_of_get id). apply get_set_eq.
    + rewrite length_map. unfold JsMap.values. rewrite length_map.
      destruct (vdi_pool_keys s' Hs') as [_ Hlen]. exact Hlen.
Qed.

Lemma assignRoute_success_witness :
  response (assignRoute all_clients (Some (mkUser 2 "tinaga" "hash-of-tinaga123"))
                        "VDI02" held_and_requested)
  = json200 (mkVDI "VDI02" Assigned (Some 2)).
Proof.
  apply (assignRoute_success all_clients (mkUser 2 "tinaga" "hash-of-tinaga123")
           "VDI02" (mkVDI "VDI02" Free None) held_and_requested).
  - unfold held_and_requested, seeded. reachable_now.
  - reflexivity.
  - reflexivity.
  - reflexivity.
Defined.

(** X21. The four writing routes answer 401 exactly to an unauthenticated
    request, and then leave the store as it was; whenever the answer is not
    a 200, no message is pushed to any socket, neither an alert nor a
    snapshot.  A 400 of the assign and reject routes also leaves the store
    as it was. *)
Theorem routes_push_only_on_success clients conns user id requestId s :
  let quiet := fun (A : Type) (handled : Handled A) =>
    (response handled = sendStatus401 <-> user = None) /\
    (user = None -> store handled = s) /\
    ((forall body, response handled <> json200 body) ->
     notified handled = [] /\ broadcasted handled = []) in
  quiet _ (assignRoute clients user id s) /\
  quiet _ (requestRoute clients conns user id s) /\
  quiet _ (approveRoute clients user requestId s) /\
  quiet _ (rejectRoute clients user requestId s) /\
  (forall error, response (assignRoute clients user id s) = json400 error ->
     store (assignRoute clients user id s) = s) /\
  (forall error, response (rejectRoute clients user requestId s) = json400 error ->
     store (rejectRoute clients user requestId s) = s).
Proof.
  intros quiet. subst quiet. cbv beta.
  unfold assignRoute, requestRoute, approveRoute, rejectRoute.
  destruct user as [user|].
  - rewrite createVDIRequest_eq. cbv zeta.
    pose proof (assignVDI_failure id (user_id user) s) as Hassign.
    destruct (assignVDI id (user_id user) s) as [[ea|va] sa].
    all: destruct (withRequestId approveVDIRequest requestId s) as [[ep|vp] sp].
    all: assert (Hreject : forall e, fst (withRequestId rejectVDIRequest requestId s) = inl e ->
                   snd (withRequestId rejectVDIRequest requestId s) = s)
           by (intros e; destruct requestId as [r|]; cbn [withRequestId]; [|done];
               rewrite rejectVDIRequest_eq;
               destruct (JsMap.get r (vdiRequests s)); [intros [=] | done]).
    all: destruct (withRequestId rejectVDIRequest requestId s) as [[er|vr] sr].
    all: cbn [response store notified broadcasted fst snd] in *.
    all: repeat split; try done.
    all: try match goal with
             | Hno : forall body, json200 _ <> json200 body |- _ =>
                 exfalso; eapply Hno; reflexivity
             end.
    all: try (intros; by destruct (Hassign _ eq_refl)).
    all: try (intros; by apply (Hreject _ eq_refl)).
  - cbn [response store notified broadcasted]. repeat split; try done.
Qed.

(** X22. End to end: when a VDI is held, a user's request for it is accepted
    with a fresh pending request, and approving that request, by anyone
    and at once, is answered 400 "VDI already assigned": the VDI stays with
    its holder, nothing is broadcast, and the request is stored as
    [Approved] all the same. *)
Theorem request_then_approve_held clients conns requester approver v vdi s :
  JsMap.get v (vdis s) = Some vdi ->
  vdi_status vdi = Assigned ->
  let requested := requestRoute clients conns (Some requester) v s in
  let request := mkVDIRequest (currentRequestId s) v (user_id requester) Pending in
  let approved :=
    approveRoute clients (Some approver) (Some (currentRequestId s)) (store requested) in
  response requested = json200 request /\
  JsMap.get (currentRequestId s) (vdiRequests (store requested)) = Some request /\
  response approved = json400 "VDI already assigned" /\
  JsMap.get v (vdis (store approved)) = Some vdi /\
  broadcasted approved = [] /\ notified approved = [] /\
  JsMap.get (currentRequestId s) (vdiRequests (store approved))
    = Some (with_status request Approved).
Proof.
  intros Hvdi Hst requested request approved.
  assert (Hrequested : requested =
            mkHandled (json200 request) (snd (createVDIRequest v (user_id requester) s))
              (notifyVDIRequest conns v (user_id requester)
                 (snd (createVDIRequest v (user_id requester) s)))
              (broadcastVDIUpdate clients (snd (createVDIRequest v (user_id requester) s))))
    by reflexivity.
  set (s1 := snd (createVDIRequest v (user_id requester) s)) in *.
  assert (Hreq : JsMap.get (currentRequestId s) (vdiRequests s1) = Some request).
  { subst s1. rewrite createVDIRequest_eq. cbn. apply get_set_eq. }
  assert (Hheld : assignVDI v (user_id requester) s1 = (inl VDI_already_assigned, s1)).
  { rewrite assignVDI_eq. change (vdis s1) with (vdis s).
    by rewrite Hvdi, decide_True. }
  assert (Happroved : approved =
            mkHandled (json400 "VDI already assigned")
              (with_vdiRequests
                 (JsMap.set (currentRequestId s) (with_status request Approved)) s1)
              [] []).
  { subst approved. rewrite Hrequested. cbn [store]. unfold approveRoute, withRequestId.
    rewrite (approveVDIRequest_found _ _ _ Hreq). cbn [vdiId requestedByUserId request].
    by rewrite Hheld. }
  rewrite Happroved, Hrequested. cbn [response store notified broadcasted].
  split_and!; try done. cbn. apply get_set_eq.
Qed.

Lemma request_then_approve_held_witness :
  response
    (approveRoute all_clients (Some (mkUser 1 "madhav" "hash-of-madhav123"))
       (Some (currentRequestId held_and_requested))
       (store (requestRoute all_clients sockets
                 (Some (mkUser 2 "tinaga" "hash-of-tinaga123")) "VDI01"
                 held_and_requested)))
  = json400 "VDI already assigned".
Proof.
  apply (request_then_approve_held all_clients sockets
           (mkUser 2 "tinaga" "hash-of-tinaga123") (mkUser 1 "madhav" "hash-of-madhav123")
           "VDI01" (mkVDI "VDI01" Assigned (Some 1)) held_and_requested).
  - reflexivity.
  - reflexivity.
Defined.

(** ** The home page *)

Lemma get_of_elem {K V} `{EqDecision K} (k : K) (v : V) (m : JsMap.t K V) :
  NoDup (JsMap.keys m) -> (k, v) ∈ m -> JsMap.get k m = Some v.
Proof.
  induction m as [|[k0 v0] m IH]; [by intros _ ?%elem_of_nil|].
  simpl. intros Hnd Hin. apply NoDup_cons in Hnd as [Hk0 Hm].
  apply elem_of_cons in Hin as [[= <- <-]|Hin].
  - by rewrite decide_True.
  - rewrite decide_False; [by apply IH|]. intros ->. apply Hk0.
    apply list_elem_of_fmap. by exists (k0, v).
Qed.

Lemma pool_keys_NoDup : NoDup (JsMap.keys (vdis constructor)).
Proof. apply (bool_decide_unpack _). by vm_compute. Qed.

Lemma stored_vdi_lookup s vdi :
  reachable s -> vdi ∈ JsMap.values (vdis s) -> JsMap.get (vdi_id vdi) (vdis s) = Some vdi.
Proof.
  intros Hs Hin. pose proof (reachable_wf _ Hs) as [Hv _ _ _ _].
  apply elem_values_get in Hin as [k Hin]. rewrite Forall_forall in Hv.
  destruct (Hv _ Hin) as [Hid _]. cbn in Hid. rewrite Hid.
  apply get_of_elem; [|done]. rewrite (proj1 (vdi_pool_keys s Hs)).
  apply pool_keys_NoDup.
Qed.

(** X23. For a logged-in stored user looking at a VDI of a reachable store,
    the home page offers at most one button.  "Assign VDI" is offered
    exactly when [assignVDI] for this user would return; "Request VDI"
    exactly when another user holds the VDI; no button, and "You" in the
    user column, exactly when this user holds it. *)
Theorem home_page_actions s vdi user :
  reachable s ->
  vdi ∈ JsMap.values (vdis s) ->
  JsMap.get (user_id user) (users s) = Some user ->
  let shown := withUserInfo s vdi in
  (actions shown (Some user) = [AssignButton] <->
   exists updated, fst (assignVDI (vdi_id vdi) (user_id user) s) = inr updated) /\
  (actions shown (Some user) = [RequestButton] <->
   exists holder, assignedUserId vdi = Some holder /\ holder <> user_id user) /\
  (actions shown (Some user) = [] <-> assignedUserId vdi = Some (user_id user)) /\
  (userCell shown (Some user) = You <-> assignedUserId vdi = Some (user_id user)) /\
  (length (actions shown (Some user)) <= 1)%nat.
Proof.
  intros Hs Hin Huser shown. subst shown.
  pose proof (vdi_assigned_iff_holder_aux s vdi Hs Hin) as Hcons.
  pose proof (stored_vdi_lookup s vdi Hs Hin) as Hget.
  rewrite (withUserInfo_reachable _ _ Hs). unfold actions, userCell.
  cbn [info_vdi assignedUsername]. rewrite assignVDI_eq, Hget.
  unfold vdi_consistent in Hcons.
  destruct (vdi_status vdi) eqn:Hst.
  - assert (Hnone : assignedUserId vdi = None).
    { destruct (assignedUserId vdi); [|done].
      assert (Free = Assigned) by (by apply Hcons). done. }
    rewrite Hnone. rewrite decide_True by done.
    rewrite (decide_False (P := Free = Assigned)) by done.
    cbn. split_and!.
    + split; [intros _ | done].
      destruct (decide (Free = Assigned)) as [|_]; [done|]. by eexists.
    + split; [done | by intros (? & ? & ?)].
    + split; done.
    + split; done.
    + lia.
  - assert (Hsome : exists h, assignedUserId vdi = Some h).
    { destruct (assignedUserId vdi) as [h|]; [by exists h|].
      destruct Hcons as [Hcons _]. by destruct (Hcons eq_refl). }
    destruct Hsome as [h Hh]. rewrite Hh.
    rewrite (decide_False (P := Assigned = Free)) by done.
    rewrite !decide_True by done. cbn [sameUser app].
    destruct (Z.eqb_spec h (user_id user)) as [->|Hne].
    + cbn. split_and!; try done.
      * split; [done | intros [? [=]]].
      * split; [done | by intros (h' & [= <-] & Hne)].
      * lia.
    + cbn [length]. split_and!.
      * split; [done | intros [? [=]]].
      * split; [intros _; by exists h | done].
      * split; [done | intros [= ->]; done].
      * split; [|intros [= ->]; done].
        cbn [truthy]. by destruct (negb (h =? 0)%Z).
      * lia.
Qed.

Lemma home_page_actions_witness :
  actions (withUserInfo held_and_requested (mkVDI "VDI01" Assigned (Some 1)))
          (Some (mkUser 2 "tinaga" "hash-of-tinaga123")) = [RequestButton] <->
  exists holder, assignedUserId (mkVDI "VDI01" Assigned (Some 1)) = Some holder /\
                 holder <> user_id (mkUser 2 "tinaga" "hash-of-tinaga123").
Proof.
  apply (home_page_actions held_and_requested (mkVDI "VDI01" Assigned (Some 1))
           (mkUser 2 "tinaga" "hash-of-tinaga123")).
  - unfold held_and_requested, seeded. reachable_now.
  - apply list_elem_of_In. vm_compute. left. reflexivity.
  - reflexivity.
Defined.

(** ** The request route *)

(** X24. [POST /api/vdis/:id/request] by a stored user for a VDI of a
    reachable store that another user holds answers 200 with a fresh
    pending request; the alert, naming the requester, the VDI and that very
    request, goes to each open socket registered for the holder and to no
    other socket, and the snapshot goes to every open socket of the
    server. *)
Theorem requestRoute_alerts_holder clients conns requester v vdi holder s :
  reachable s ->
  JsMap.get (user_id requester) (users s) = Some requester ->
  JsMap.get v (vdis s) = Some vdi ->
  assignedUserId vdi = Some holder -> holder <> 0 ->
  let handled := requestRoute clients conns (Some requester) v s in
  let request := mkVDIRequest (currentRequestId s) v (user_id requester) Pending in
  response handled = json200 request /\
  JsMap.get (currentRequestId s) (vdiRequests s) = None /\
  JsMap.get (currentRequestId s) (vdiRequests (store handled)) = Some request /\
  vdis (store handled) = vdis s /\
  notified handled =
    map (fun client =>
           send client (vdi_request (user_id requester) (username requester) v
                                    (currentRequestId s)))
        (filter (fun client => readyState client = OPEN)
                (default [] (JsMap.get holder conns))) /\
  map fst (broadcasted handled) = filter (fun client => readyState client = OPEN) clients.
Proof.
  intros Hs Huser Hvdi Hholder Hnz handled request. subst handled.
  unfold requestRoute. rewrite createVDIRequest_eq. cbv zeta.
  cbn [response store notified broadcasted].
  split_and!; try done.
  - by apply reachable_request_id_fresh.
  - cbn. apply get_set_eq.
  - rewrite <- (notify_after_create conns v (user_id requester) s holder requester);
      try done.
    by rewrite Hvdi.
  - unfold broadcastVDIUpdate. rewrite map_map. cbn [fst]. apply map_id.
Qed.

Lemma requestRoute_alerts_holder_witness :
  notified (requestRoute all_clients sockets (Some (mkUser 2 "tinaga" "hash-of-tinaga123"))
              "VDI01" held_and_requested)
  = map (fun client => send client (vdi_request 2 "tinaga" "VDI01" 2))
        (filter (fun client => readyState client = OPEN)
                (default [] (JsMap.get 1 sockets))).
Proof.
  apply (requestRoute_alerts_holder all_clients sockets
           (mkUser 2 "tinaga" "hash-of-tinaga123") "VDI01"
           (mkVDI "VDI01" Assigned (Some 1)) 1 held_and_requested).
  - unfold held_and_requested, seeded. reachable_now.
  - reflexivity.
  - reflexivity.
  - reflexivity.
  - discriminate.
Defined.

(** X25. User id 0 is falsy: a VDI of a reachable store assigned to user
    id 0 has status [Assigned], yet no alert is ever sent for it and its
    snapshot entry carries no username. *)
Theorem holder_zero_is_invisible conns v vdi uid s :
  reachable s ->
  JsMap.get v (vdis s) = Some vdi ->
  assignedUserId vdi = Some 0 ->
  vdi_status vdi = Assigned /\
  notifyVDIRequest conns v uid s = [] /\
  withUserInfo s vdi = mkVDIWithUserInfo vdi None.
Proof.
  intros Hs Hvdi Hzero. split_and!.
  - apply (vdi_assigned_iff_holder_aux s vdi Hs); [by eapply value_of_get|].
    by rewrite Hzero.
  - unfold notifyVDIRequest. rewrite (holder_lookup _ _ Hs), Hvdi. cbn [mbind option_bind].
    rewrite Hzero. by destruct (JsMap.get uid (users s)).
  - unfold withUserInfo. by rewrite Hzero.
Qed.

Lemma holder_zero_is_invisible_witness :
  notifyVDIRequest sockets "VDI03" 2
    (exec (CreateVDIRequest "VDI03" 2) (exec (AssignVDI "VDI03" 0) seeded)) = [].
Proof.
  apply (holder_zero_is_invisible sockets "VDI03" (mkVDI "VDI03" Assigned (Some 0)) 2
           (exec (CreateVDIRequest "VDI03" 2) (exec (AssignVDI "VDI03" 0) seeded))).
  - unfold seeded. reachable_now.
  - reflexivity.
  - reflexivity.
Defined.

(** ** The notification where it is called *)

Lemma store_assignRoute clients user id s :
  store (assignRoute clients user id s) =
  match user with
  | Some u => snd (assignVDI id (user_id u) s)
  | None => s
  end.
Proof.
  unfold assignRoute. destruct user as [u|]; [|done].
  by destruct (assignVDI id (user_id u) s) as [[e|vdi] s'].
Qed.

Lemma store_requestRoute clients conns user id s :
  store (requestRoute clients conns user id s) =
  match user with
  | Some u => snd (createVDIRequest id (user_id u) s)
  | None => s
  end.
Proof. unfold requestRoute. by destruct user as [u|]. Qed.

Lemma store_approveRoute clients user id s :
  store (approveRoute clients user id s) =
  match user, id with
  | Some _, Some requestId => snd (approveVDIRequest requestId s)
  | _, _ => s
  end.
Proof.
  unfold approveRoute, withRequestId. destruct user as [u|]; [|done].
  destruct id as [requestId|]; [|done].
  by destruct (approveVDIRequest requestId s) as [[e|request] s'].
Qed.

Lemma store_rejectRoute clients user id s :
  store (rejectRoute clients user id s) =
  match user, id with
  | Some _, Some requestId => snd (rejectVDIRequest requestId s)
  | _, _ => s
  end.
Proof.
  unfold rejectRoute, withRequestId. destruct user as [u|]; [|done].
  destruct id as [requestId|]; [|done].
  by destruct (rejectVDIRequest requestId s) as [[e|request] s'].
Qed.

(* A store the server can be in is a store the storage calls can reach. *)
Lemma served_reachable s : served s -> reachable s.
Proof.
  induction 1 as [|iu s _ IH|clients user id s _ IH _|clients conns user id s _ IH _
                  |clients user id s _ IH _|clients user id s _ IH _].
  - apply reachable_constructor.
  - apply (reachable_exec (CreateUser iu)) in IH. by rewrite exec_eq in IH.
  - rewrite store_assignRoute. destruct user as [u|]; [|done].
    apply (reachable_exec (AssignVDI id (user_id u))) in IH. by rewrite exec_eq in IH.
  - rewrite store_requestRoute. destruct user as [u|]; [|done].
    apply (reachable_exec (CreateVDIRequest id (user_id u))) in IH.
    by rewrite exec_eq in IH.
  - rewrite store_approveRoute. destruct user as [u|], id as [requestId|]; try done.
    apply (reachable_exec (ApproveVDIRequest requestId)) in IH. by rewrite exec_eq in IH.
  - rewrite store_rejectRoute. destruct user as [u|], id as [requestId|]; try done.
    apply (reachable_exec (RejectVDIRequest requestId)) in IH. by rewrite exec_eq in IH.
Qed.

Lemma is_Some_get_set {K V} `{EqDecision K} (k k' : K) (v : V) (m : JsMap.t K V) :
  is_Some (JsMap.get k m) -> is_Some (JsMap.get k (JsMap.set k' v m)).
Proof. intros Hk. rewrite get_set. by case_decide. Qed.

Lemma parties_createUser insertUser s :
  parties_are_users s -> parties_are_users (snd (createUser insertUser s)).
Proof.
  intros [Hv Hr]. rewrite createUser_eq. split; cbn [snd users vdis vdiRequests].
  - eapply Forall_impl; [exact Hv|]. intros kv Hkv holder Hh.
    by apply is_Some_get_set, Hkv.
  - eapply Forall_impl; [exact Hr|]. intros kv Hkv. by apply is_Some_get_set.
Qed.

Lemma parties_assignVDI v userId s :
  is_Some (JsMap.get userId (users s)) ->
  parties_are_users s -> parties_are_users (snd (assignVDI v userId s)).
Proof.
  intros Hu [Hv Hr]. split.
  - rewrite users_assignVDI, vdis_assignVDI.
    destruct (JsMap.get v (vdis s)); [case_decide|]; try done.
    apply Forall_set_key; [|done]. by intros holder [= <-].
  - by rewrite users_assignVDI, vdiRequests_assignVDI.
Qed.

Lemma parties_createVDIRequest v userId s :
  is_Some (JsMap.get userId (users s)) ->
  parties_are_users s -> parties_are_users (snd (createVDIRequest v userId s)).
Proof.
  intros Hu [Hv Hr]. rewrite createVDIRequest_eq. split; [done|].
  cbn [snd users vdiRequests]. by apply Forall_set_key.
Qed.

Lemma parties_status requestId request st s :
  JsMap.get requestId (vdiRequests s) = Some request ->
  parties_are_users s ->
  is_Some (JsMap.get (requestedByUserId request) (users s)) /\
  parties_are_users (with_vdiRequests (JsMap.set requestId (with_status request st)) s).
Proof.
  intros Hget [Hv Hr].
  assert (Hreq : is_Some (JsMap.get (requestedByUserId request) (users s))).
  { apply get_Some_elem in Hget. rewrite Forall_forall in Hr. by apply (Hr _ Hget). }
  split; [done|]. split; [done|]. cbn [users vdiRequests with_vdiRequests].
  by apply Forall_set_key.
Qed.

Lemma parties_approve requestId s :
  parties_are_users s -> parties_are_users (snd (approveVDIRequest requestId s)).
Proof.
  intros Hp. destruct (JsMap.get requestId (vdiRequests s)) as [request|] eqn:Hget.
  - destruct (parties_status _ _ Approved _ Hget Hp) as [Hreq _].
    rewrite (approveVDIRequest_found _ _ _ Hget). cbn [snd].
    apply (parties_assignVDI (vdiId request) _ _ Hreq) in Hp.
    set (s1 := snd (assignVDI (vdiId request) (requestedByUserId request) s)) in *.
    assert (Hget1 : JsMap.get requestId (vdiRequests s1) = Some request).
    { subst s1. by rewrite vdiRequests_assignVDI. }
    by destruct (parties_status _ _ Approved _ Hget1 Hp).
  - by rewrite (vdis_approve_unknown _ _ Hget).
Qed.

Lemma parties_reject requestId s :
  parties_are_users s -> parties_are_users (snd (rejectVDIRequest requestId s)).
Proof.
  intros Hp. rewrite rejectVDIRequest_eq.
  destruct (JsMap.get requestId (vdiRequests s)) as [request|] eqn:Hget; [|done].
  by destruct (parties_status _ _ Rejected _ Hget Hp).
Qed.

(* In a store the server can be in, every holder and every requester is a
   stored user. *)
Lemma served_parties s : served s -> parties_are_users s.
Proof.
  induction 1 as [|iu s _ IH|clients user id s _ IH Hauth|clients conns user id s _ IH Hauth
                  |clients user id s _ IH _|clients user id s _ IH _].
  - split; [|constructor]. apply Forall_forall. intros [k vdi] Hin holder Hh.
    pose proof wf_constructor as [Hv _ _ _ _].
    assert (Hfree : Forall (fun kv => assignedUserId (snd kv) = None) (vdis constructor)).
    { set (pool := vdis constructor). vm_compute in pool. subst pool. repeat constructor. }
    rewrite Forall_forall in Hfree. specialize (Hfree _ Hin). cbn in *. congruence.
  - by apply parties_createUser.
  - rewrite store_assignRoute. destruct user as [u|]; [|done].
    apply parties_assignVDI; [|done]. by rewrite (Hauth u).
  - rewrite store_requestRoute. destruct user as [u|]; [|done].
    apply parties_createVDIRequest; [|done]. by rewrite (Hauth u).
  - rewrite store_approveRoute. destruct user as [u|], id as [requestId|]; try done.
    by apply parties_approve.
  - rewrite store_rejectRoute. destruct user as [u|], id as [requestId|]; try done.
    by apply parties_reject.
Qed.

(* The request just created is the latest pending one for its VDI. *)
Lemma latestPendingRequestFor_created v userId s :
  reachable s ->
  latestPendingRequestFor v (snd (createVDIRequest v userId s))
  = Some (mkVDIRequest (currentRequestId s) v userId Pending).
Proof.
  intros Hs. unfold latestPendingRequestFor. rewrite createVDIRequest_eq.
  cbn [snd vdiRequests]. rewrite (set_absent _ _ _ (reachable_request_id_fresh _ Hs)).
  unfold JsMap.values. rewrite map_app, filter_app. cbn [map snd].
  rewrite filter_cons_True by done. rewrite filter_nil. apply last_snoc.
Qed.

(** C6. Every call of [notifyVDIRequest] is the one of the request route:
    on the store [createVDIRequest] has just left, for the same VDI and the
    authenticated user.  There, if the VDI has no holder nothing is sent;
    otherwise one message, carrying the requesting user's id and username,
    the VDI id and the id of the most recently created pending request for
    that VDI, goes to each open socket of the holder, and a socket of
    another user that is not also the holder's receives nothing. *)
Theorem notifyVDIRequest_at_call_site conns v requester s :
  served s ->
  JsMap.get (user_id requester) (users s) = Some requester ->
  let s' := snd (createVDIRequest v (user_id requester) s) in
  match JsMap.get v (vdis s') ≫= assignedUserId with
  | None => notifyVDIRequest conns v (user_id requester) s' = []
  | Some holder =>
      exists request,
        latestPendingRequestFor v s' = Some request /\
        notifyVDIRequest conns v (user_id requester) s' =
          map (fun client =>
                 send client (vdi_request (user_id requester) (username requester) v
                                          (request_id request)))
              (filter (fun client => readyState client = OPEN)
                      (default [] (JsMap.get holder conns))) /\
        (forall other client message,
           other <> holder ->
           client ∈ default [] (JsMap.get other conns) ->
           client ∉ default [] (JsMap.get holder conns) ->
           send client message ∉ notifyVDIRequest conns v (user_id requester) s')
  end.
Proof.
  intros Hserved Huser s'.
  pose proof (served_reachable _ Hserved) as Hs.
  pose proof (served_parties _ Hserved) as [Hholders _].
  assert (Hs' : reachable s').
  { subst s'. apply (reachable_exec (CreateVDIRequest v (user_id requester))) in Hs.
    by rewrite exec_eq in Hs. }
  change (vdis s') with (vdis s).
  destruct (JsMap.get v (vdis s)) as [vdi|] eqn:Hvdi; cbn [mbind option_bind].
  - destruct (assignedUserId vdi) as [holder|] eqn:Hholder.
    + assert (Hnz : holder <> 0).
      { apply get_Some_elem in Hvdi. rewrite Forall_forall in Hholders.
        destruct (Hholders _ Hvdi holder Hholder) as [u Hu].
        pose proof (stored_user_positive _ _ _ Hs Hu). lia. }
      assert (Hsent := notify_after_create conns v (user_id requester) s holder requester Hs).
      rewrite Hvdi in Hsent. specialize (Hsent Hholder Hnz Huser). fold s' in Hsent.
      eexists. split; [by apply latestPendingRequestFor_created|].
      cbn [request_id]. split; [exact Hsent|].
      intros other client message _ _ Hnot Hin. rewrite Hsent in Hin.
      apply list_elem_of_fmap in Hin as [c [[= <- _] Hc]].
      apply list_elem_of_filter in Hc as [_ Hc]. done.
    + unfold notifyVDIRequest. rewrite (holder_lookup _ _ Hs').
      change (vdis s') with (vdis s). rewrite Hvdi. cbn [mbind option_bind].
      by rewrite Hholder.
  - unfold notifyVDIRequest. rewrite (holder_lookup _ _ Hs').
    change (vdis s') with (vdis s). by rewrite Hvdi.
Qed.

Lemma notifyVDIRequest_at_call_site_witness :
  exists request,
    latestPendingRequestFor "VDI01" (snd (createVDIRequest "VDI01" 2 taken_by_madhav))
      = Some request /\
    notifyVDIRequest sockets "VDI01" 2 (snd (createVDIRequest "VDI01" 2 taken_by_madhav)) =
      map (fun client => send client (vdi_request 2 "tinaga" "VDI01" (request_id request)))
          (filter (fun client => readyState client = OPEN)
                  (default [] (JsMap.get 1 sockets))) /\
    (forall other client message,
       other <> 1 ->
       client ∈ default [] (JsMap.get other sockets) ->
       client ∉ default [] (JsMap.get 1 sockets) ->
       send client message ∉
         notifyVDIRequest sockets "VDI01" 2
           (snd (createVDIRequest "VDI01" 2 taken_by_madhav))).
Proof.
  apply (notifyVDIRequest_at_call_site sockets "VDI01"
           (mkUser 2 "tinaga" "hash-of-tinaga123") taken_by_madhav).
  - unfold taken_by_madhav. apply served_assign.
    + change seeded with (snd (createUser tinaga (snd (createUser madhav constructor)))).
      do 2 apply served_createUser. apply served_constructor.
    + intros u [= <-]. reflexivity.
  - reflexivity.
Defined.

Example alert_at_call_site :
  notifyVDIRequest sockets "VDI01" 2 (snd (createVDIRequest "VDI01" 2 taken_by_madhav))
  = [send (mkWebSocket 10 OPEN) (vdi_request 2 "tinaga" "VDI01" 1)].
Proof. vm_compute. reflexivity. Qed.
